(** * sludge: the request dispatcher and the segment upload handler

    A shallow embedding of [src/requestHandler.ts] (class [RequestHandler])
    and of the upload module (class [UploadFormHandler]) of the sludge audio
    relay, followed by the properties of its design document.

    Conventions of the embedding.
    - A JavaScript [string] is a Rocq [string]; [undefined] is [None].
      An indexed access [path[i]] has type [option string]: TypeScript
      lets it flow into parameters typed [string] unchecked, so identifier
      arguments of the providers are [option string] as well.
    - An awaited promise is its settled outcome, a [result]: [Ok v] when it
      is fulfilled, [Throw e] when it is rejected (or when the call threw).
    - [try { ... } catch ( e ) { ... }] is [try_catch] on a [result].
    - The collaborators passed to the constructors (TypeScript interfaces)
      are records of functions. *)

From Stdlib Require Import String Ascii List ZArith Bool Lia.
From Stdlib Require Import Strings.Byte.
From Stdlib Require DecimalString.
Import ListNotations.

Local Open Scope string_scope.
Local Open Scope list_scope.

(** ** JavaScript run-time values *)

Module Js.

(** [Error( message )]: the handlers only ever read [e.message]. *)
Record JsError : Type := mkError { message : string }.

(** Outcome of evaluating an expression that may throw. *)
Inductive result (A : Type) : Type :=
| Ok (a : A)
| Throw (e : JsError).

Arguments Ok {A} a.
Arguments Throw {A} e.

Definition bind {A B : Type} (c : result A) (k : A -> result B) : result B :=
  match c with
  | Ok a => k a
  | Throw e => Throw e
  end.

(** A promise, seen through its settled outcome. *)
Definition Promise (A : Type) : Type := result A.

(** [await p]: the value of a fulfilled promise, a throw for a rejected one. *)
Definition await {A : Type} (p : Promise A) : result A := p.

(** A call to a function typed [=> Promise<A>] whose promise is NOT awaited:
    either the call itself throws synchronously, or it hands back a promise
    whose later outcome the caller never observes. *)
Inductive call (A : Type) : Type :=
| Threw (e : JsError)
| Returned (p : Promise A).

Arguments Threw {A} e.
Arguments Returned {A} p.

(** [try { body } catch ( e ) { handler }] where both branches return. *)
Definition try_catch {A : Type} (body : result A) (handler : JsError -> A) : A :=
  match body with
  | Ok a => a
  | Throw e => handler e
  end.

Definition Uint8Array : Type := list byte.

(** The href of a [URL] object. *)
Definition URL : Type := string.

(** *** Strings *)

(** [s.split( sep )] for a one-character separator. *)
Fixpoint split (sep : ascii) (s : string) : list string :=
  match s with
  | EmptyString => [EmptyString]
  | String c rest =>
      if Ascii.eqb c sep then EmptyString :: split sep rest
      else match split sep rest with
           | [] => [String c EmptyString]
           | h :: t => String c h :: t
           end
  end.

Fixpoint indexOf_from (c : ascii) (s : string) (i : Z) : Z :=
  match s with
  | EmptyString => (-1)%Z
  | String d rest => if Ascii.eqb d c then i else indexOf_from c rest (i + 1)%Z
  end.

(** [s.indexOf( c )] for a one-character needle: [-1] when it does not occur. *)
Definition indexOf (c : ascii) (s : string) : Z := indexOf_from c s 0.

Fixpoint drop (n : nat) (s : string) : string :=
  match n, s with
  | O, _ => s
  | S _, EmptyString => EmptyString
  | S m, String _ rest => drop m rest
  end.

(** [s.substr( start )]: a negative [start] counts from the end. *)
Definition substr (s : string) (start : Z) : string :=
  let len := Z.of_nat (String.length s) in
  let from := if (start <? 0)%Z then Z.max (len + start) 0 else start in
  drop (Z.to_nat from) s.

(** Truthiness of a [string | null]. *)
Definition truthy_string (s : option string) : bool :=
  match s with
  | None => false
  | Some EmptyString => false
  | Some _ => true
  end.

(** Truthiness of a [number | null]. *)
Definition truthy_number (n : option Z) : bool :=
  match n with
  | None => false
  | Some k => negb (k =? 0)%Z
  end.

Definition lower (c : ascii) : ascii :=
  let n := nat_of_ascii c in
  if andb (65 <=? n)%nat (n <=? 90)%nat then ascii_of_nat (n + 32) else c.

Fixpoint lowercase (s : string) : string :=
  match s with
  | EmptyString => EmptyString
  | String c rest => String (lower c) (lowercase rest)
  end.

(** *** [Headers] *)

(** A header list: names are stored in lower case, in insertion order. *)
Definition Headers : Type := list (string * string).

Definition new_Headers : Headers := [].

Definition named (name : string) (h : string * string) : bool :=
  String.eqb (fst h) (lowercase name).

(** [headers.append( name, value )] *)
Definition append (name value : string) (hs : Headers) : Headers :=
  hs ++ [(lowercase name, value)].

Fixpoint replace_first (name value : string) (hs : Headers) : Headers :=
  match hs with
  | [] => []
  | h :: rest =>
      if named name h
      then (lowercase name, value) :: filter (fun h' => negb (named name h')) rest
      else h :: replace_first name value rest
  end.

(** [headers.set( name, value )] *)
Definition set (name value : string) (hs : Headers) : Headers :=
  if existsb (named name) hs then replace_first name value hs
  else append name value hs.

(** [headers.get( name )]: the values under [name] joined by [", "],
    [null] when there is none. *)
Definition get (name : string) (hs : Headers) : option string :=
  match filter (named name) hs with
  | [] => None
  | vs => Some (String.concat ", " (map snd vs))
  end.

(** *** [JSON.stringify] *)

#[local] Set Warnings "-register-all".

Inductive json : Type :=
| JString (s : string)
| JArray (items : list json)
| JObject (fields : list (string * json)).

Definition dquote : string := String (ascii_of_nat 34) EmptyString.

Definition hex_digit (n : nat) : ascii :=
  if (n <? 10)%nat then ascii_of_nat (48 + n) else ascii_of_nat (87 + n).

Definition escape_char (c : ascii) : string :=
  let n := nat_of_ascii c in
  if (n =? 34)%nat then ("\" ++ dquote)%string
  else if (n =? 92)%nat then "\\"
  else if (n =? 8)%nat then "\b"
  else if (n =? 9)%nat then "\t"
  else if (n =? 10)%nat then "\n"
  else if (n =? 12)%nat then "\f"
  else if (n =? 13)%nat then "\r"
  else if (n <? 32)%nat
       then ("\u00" ++ String (hex_digit (n / 16))
                         (String (hex_digit (n mod 16)) EmptyString))%string
       else String c EmptyString.

Fixpoint escape (s : string) : string :=
  match s with
  | EmptyString => EmptyString
  | String c rest => (escape_char c ++ escape rest)%string
  end.

Definition quote (s : string) : string := (dquote ++ escape s ++ dquote)%string.

Definition member (kv : string * string) : string :=
  (quote (fst kv) ++ ":" ++ snd kv)%string.

Fixpoint JSON_stringify (j : json) : string :=
  match j with
  | JString s => quote s
  | JArray items =>
      ("[" ++ String.concat "," (map JSON_stringify items) ++ "]")%string
  | JObject fields =>
      ("{" ++ String.concat ","
                (map (fun kv => member (fst kv, JSON_stringify (snd kv))) fields)
           ++ "}")%string
  end.

(** The names of the members of a serialised object, in order. *)
Definition keys (j : json) : list string :=
  match j with
  | JObject fields => map fst fields
  | _ => []
  end.

End Js.

Import Js.

(** ** The HTTP server's request and response objects *)

(** [ServerRequest] of the HTTP library, reduced to what the two classes
    read: [body] is the outcome of [Deno.readAll( req.body )], [r] the
    bytes still to be read from the connection. *)
Record ServerRequest : Type := mkRequest {
  method : string;
  url : string;
  req_headers : Headers;
  contentLength : option Z;
  req_body : result Uint8Array;
  r : Uint8Array
}.

(** [Response] of the HTTP library: all three members are optional; every
    response built here has a status. *)
Record Response : Type := mkResponse {
  body : option Uint8Array;
  status : Z;
  headers : option Headers
}.

(** ** requestHandler.ts *)

Module RequestHandler.

Record UserStreamData : Type := mkUserStreamData {
  admin : string;
  download : string;
  hub : string
}.

Record Segment : Type := mkSegment {
  segmentID : string;
  streamPublicID : string;
  segmentURL : string
}.

Record RequestsDataProvider : Type := mkData {
  getSegmentList : option string -> option string -> Promise (list Segment)
}.

Record RequestsUUIDProvider : Type := mkUUID {
  validateUUID : option string -> bool
}.

Record RequestsActionsProvider : Type := mkActions {
  createStream : Promise UserStreamData;
  fetchStream : option string -> Promise UserStreamData;
  processUploadFormData : ServerRequest -> option string -> Promise unit;
  connectStreamToHub : URL -> option string -> call unit;
  disconnectStreamFromHub : string -> option string -> Promise unit;
  connectedHubs : option string -> Promise (list string);
  encodeText : string -> Uint8Array;
  decodeText : Uint8Array -> string
}.

(** What [JSON.stringify] sees of the three kinds of value the handler
    serialises: the members of the interfaces, in declaration order. *)
Definition json_of_stream (d : UserStreamData) : json :=
  JObject [("admin", JString (admin d));
           ("download", JString (download d));
           ("hub", JString (hub d))].

Definition json_of_segment (s : Segment) : json :=
  JObject [("segmentID", JString (segmentID s));
           ("streamPublicID", JString (streamPublicID s));
           ("segmentURL", JString (segmentURL s))].

Definition json_of_segments (l : list Segment) : json :=
  JArray (map json_of_segment l).

Definition json_of_hubs (l : list string) : json :=
  JArray (map JString l).

(** [req.url.split( `/` )] *)
Definition path_of (req : ServerRequest) : list string :=
  split "/" (url req).

(** [path[ i ]] *)
Definition at_ (path : list string) (i : nat) : option string :=
  nth_error path i.

Arguments path_of : simpl never.
Arguments at_ : simpl never.

Definition is_lit (s : option string) (lit : string) : bool :=
  match s with
  | Some t => String.eqb t lit
  | None => false
  end.

Section Handler.

Variable action : RequestsActionsProvider.
Variable data : RequestsDataProvider.
Variable uuid : RequestsUUIDProvider.

(** The platform's [new URL( text )], which throws on a malformed URL. *)
Variable new_URL : string -> result URL.

(** The [catch] block shared by the four method handlers. *)
Definition failure (e : JsError) : Response :=
  {| body := Some (encodeText action (message e));
     status := 404;
     headers := None |}.

(** A 200 response carrying serialised JSON. *)
Definition json_response (j : json) (hs : Headers) : Response :=
  {| body := Some (encodeText action (JSON_stringify j));
     status := 200;
     headers := Some hs |}.

(** The [try] block of [post]. *)
Definition post_try (req : ServerRequest) (path : list string) : result Response :=
  if is_lit (at_ path 1) "stream" then
    let headers := set "content-type" "application/json" new_Headers in
    bind (await (createStream action)) (fun d =>
    Ok (json_response (json_of_stream d) headers))
  else
    if negb (validateUUID uuid (at_ path 1)) then
      Throw (mkError "Invalid path")
    else
      bind (await (processUploadFormData action req (at_ path 1))) (fun _ =>
      Ok {| body := Some (encodeText action (String.append "Success" (String "010" EmptyString)));
            status := 200;
            headers := None |}).

Definition post (req : ServerRequest) : Response :=
  let path := path_of req in
  try_catch (post_try req path) failure.

(** The [try] block of [put]. The promise of [connectStreamToHub] is not
    awaited: only a synchronous throw of the call reaches the [catch]. *)
Definition put_try (req : ServerRequest) (path : list string) : result Response :=
  if orb (negb (validateUUID uuid (at_ path 1))) (negb (is_lit (at_ path 2) "admin")) then
    Throw (mkError "Invalid path")
  else
    if negb (truthy_number (contentLength req)) then
      Throw (mkError "No data")
    else
      bind (req_body req) (fun bytes =>
      bind (new_URL (decodeText action bytes)) (fun hubURL =>
      match connectStreamToHub action hubURL (at_ path 1) with
      | Threw e => Throw e
      | Returned _ => Ok {| body := None; status := 200; headers := None |}
      end)).

Definition put (req : ServerRequest) : Response :=
  let path := path_of req in
  try_catch (put_try req path) failure.

(** The [try] block of [delete]. *)
Definition delete_try (req : ServerRequest) (path : list string) : result Response :=
  if orb (negb (validateUUID uuid (at_ path 1))) (negb (is_lit (at_ path 2) "admin")) then
    Throw (mkError "Invalid path")
  else
    if negb (truthy_number (contentLength req)) then
      Throw (mkError "No data")
    else
      bind (req_body req) (fun bytes =>
      let hubID := decodeText action bytes in
      bind (await (disconnectStreamFromHub action hubID (at_ path 1))) (fun _ =>
      Ok {| body := None; status := 200; headers := None |})).

Definition delete (req : ServerRequest) : Response :=
  let path := path_of req in
  try_catch (delete_try req path) failure.

(** The cursor argument of the playlist query:
    [validateUUID( path[ 2 ] ) ? path[ 2 ] : undefined]. *)
Definition cursor (path : list string) : option string :=
  if validateUUID uuid (at_ path 2) then at_ path 2 else None.

(** The [try] block of [get]. *)
Definition get_try (req : ServerRequest) (path : list string) : result Response :=
  if negb (validateUUID uuid (at_ path 1)) then
    Throw (mkError "Invalid path")
  else
    let headers := set "content-type" "application/json" new_Headers in
    if is_lit (at_ path 2) "hubs" then
      bind (await (connectedHubs action (at_ path 1))) (fun hubs =>
      Ok (json_response (json_of_hubs hubs) headers))
    else if is_lit (at_ path 2) "admin" then
      bind (await (fetchStream action (at_ path 1))) (fun d =>
      Ok (json_response (json_of_stream d) headers))
    else
      bind (await (getSegmentList data (at_ path 1) (cursor path))) (fun l =>
      Ok (json_response (json_of_segments l) headers)).

Definition get (req : ServerRequest) : Response :=
  let path := path_of req in
  try_catch (get_try req path) failure.

Definition setCORS (res : Response) : Response :=
  let hs := match headers res with
            | None => new_Headers
            | Some hs => hs
            end in
  let hs := append "access-control-allow-origin" "*" hs in
  let hs := append "access-control-allow-method" "GET" hs in
  let hs := append "access-control-allow-headers"
                   "Origin, X-Requested-With, Content-Type, Accept, Range" hs in
  {| body := body res; status := status res; headers := Some hs |}.

Definition selectMethod (req : ServerRequest) : Response :=
  if String.eqb (method req) "GET" then get req
  else if String.eqb (method req) "POST" then post req
  else if String.eqb (method req) "PUT" then put req
  else if String.eqb (method req) "DELETE" then delete req
  else if String.eqb (method req) "OPTIONS" then
    {| body := None; status := 200; headers := None |}
  else
    {| body := Some (encodeText action "This is not a valid request.");
       status := 400;
       headers := None |}.

(** [handle]: the response handed to [req.respond]. *)
Definition handle (req : ServerRequest) : Response :=
  setCORS (selectMethod req).

End Handler.

End RequestHandler.

(** ** The upload module: class [UploadFormHandler] *)

Module UploadFormHandler.

(** The members of the multipart library's [FormFile] that [process] reads:
    [content] is optional ([content?: Uint8Array]); a present byte array is
    truthy in JavaScript whatever its length. *)
Record FormFile : Type := mkFormFile {
  filename : string;
  content : option Uint8Array
}.

(** [FormFile | FormFile[] | undefined], the result of [data.file( name )]. *)
Inductive file_field : Type :=
| NoFile
| OneFile (f : FormFile)
| ManyFiles (fs : list FormFile).

Record MultipartFormData : Type := mkForm {
  file : string -> file_field
}.

Record UploadDataProvider : Type := mkData {
  addSegmentURL : string -> string -> URL -> Promise unit;
  getStreamPublicIDFromStreamAdminID : option string -> Promise string
}.

Record UploadRandomProvider : Type := mkRandom {
  uuid : Promise string
}.

Record UploadCoreProvider : Type := mkCore {
  rootDir : string;
  fileURL : URL
}.

(** The platform and library functions [process] calls: the multipart
    reader over the connection's bytes with a boundary, [join] of the path
    library, [Deno.open] (yielding a resource id), [Deno.write], and
    [new URL( relative, base )]. *)
Record Platform : Type := mkPlatform {
  readForm : Uint8Array -> string -> Promise MultipartFormData;
  join : list string -> string;
  open : string -> Promise Z;
  write : Z -> Uint8Array -> Promise Z;
  new_URL : string -> URL -> result URL
}.

(** The calls with an effect outside the handler, in the order made. *)
Inductive event : Type :=
| GetStreamPublicID (streamAdminID : option string)
| ReadForm (boundary : string)
| Uuid
| Open (path : string)
| Write (rid : Z) (bytes : Uint8Array)
| Close (rid : Z)
| AddSegmentURL (segmentID streamPublicID : string) (segmentURL : URL)
| ConsoleError (text : string).

(** A computation that may throw and records the calls it made. *)
Definition M (A : Type) : Type := (list event * result A)%type.

Definition ret {A : Type} (a : A) : M A := ([], Ok a).

Definition throw {A : Type} (e : JsError) : M A := ([], Throw e).

Definition mbind {A B : Type} (m : M A) (k : A -> M B) : M B :=
  match m with
  | (t, Ok a) => let (t', b) := k a in (t ++ t', b)
  | (t, Throw e) => (t, Throw e)
  end.

(** One call: it is recorded whether or not it succeeds. *)
Definition perform {A : Type} (ev : event) (outcome : result A) : M A :=
  ([ev], outcome).

(** An effect-free expression that may throw. *)
Definition lift {A : Type} (outcome : result A) : M A := ([], outcome).

Definition catch {A : Type} (m : M A) (handler : JsError -> M A) : M A :=
  match m with
  | (t, Ok a) => (t, Ok a)
  | (t, Throw e) => let (t', b) := handler e in (t ++ t', b)
  end.

Notation "x <- c ;; k" := (mbind c (fun x => k))
  (at level 61, c at next level, right associativity).

Definition trace {A : Type} (m : M A) : list event := fst m.

Definition outcome {A : Type} (m : M A) : result A := snd m.

Definition newline : string := String "010" EmptyString.

Section Process.

Variable core : UploadCoreProvider.
Variable data : UploadDataProvider.
Variable random : UploadRandomProvider.
Variable platform : Platform.

(** The boundary handed to the multipart reader:
    [contentType.substr( contentType.indexOf( `=` ) + 1 )]. *)
Definition boundary_of (contentType : string) : string :=
  substr contentType (indexOf "=" contentType + 1).

(** Everything after the guard on the form's file: steps from the fresh
    identifier to the registration of the segment. *)
Definition store_segment (streamPublicID : string) (bytes : Uint8Array) : M unit :=
  segmentID <- perform Uuid (await (uuid random)) ;;
  let fileLocation :=
    join platform [streamPublicID; String.append segmentID ".opus"] in
  rid <- perform (Open (join platform [rootDir core; "audio"; fileLocation]))
                 (await (open platform (join platform [rootDir core; "audio"; fileLocation]))) ;;
  _ <- perform (Write rid bytes) (await (write platform rid bytes)) ;;
  _ <- perform (Close rid) (Ok tt) ;;
  catch
    (segmentURL <- lift (new_URL platform fileLocation (fileURL core)) ;;
     perform (AddSegmentURL segmentID streamPublicID segmentURL)
             (await (addSegmentURL data segmentID streamPublicID segmentURL)))
    (fun _ =>
       perform (ConsoleError
                  (String.append "Failed to create segment entry "
                     (String.append segmentID
                        (String.append " for " streamPublicID))))
               (Ok tt)).

Definition process (req : ServerRequest) (streamAdminID : option string) : M unit :=
  let contentType := get "content-type" (req_headers req) in
  match contentType with
  | None => throw (mkError (String.append "Missing content type header" newline))
  | Some EmptyString => throw (mkError (String.append "Missing content type header" newline))
  | Some contentType =>
      streamPublicID <-
        perform (GetStreamPublicID streamAdminID)
                (await (getStreamPublicIDFromStreamAdminID data streamAdminID)) ;;
      form <- perform (ReadForm (boundary_of contentType))
                      (await (readForm platform (r req) (boundary_of contentType))) ;;
      match file form "audio" with
      | NoFile => ret tt
      | ManyFiles _ => ret tt
      | OneFile formFile =>
          match content formFile with
          | None => ret tt
          | Some bytes => store_segment streamPublicID bytes
          end
      end
  end.

End Process.

End UploadFormHandler.

(** ** The hub fan-out manager *)

Module HubManager.

Import RequestHandler.

(** Modelled from the spec: the Hub Fan-out Manager behind the actions
    [connectStreamToHub], [disconnectStreamFromHub] and [connectedHubs] is
    not among the sources. Section 4.3 gives its contract:
    [connect( adminID, hubURL )] registers a callback target under the
    stream, [disconnect( adminID, hubID )] removes a registration by its
    handle (removing a handle that is not there is a no-op), [list( adminID )]
    returns the registered handles, and all three fail with [UnknownStream]
    when [adminID] does not resolve to a stream. Registrations live in the
    store, duplicates included. *)
Record Registration : Type := mkRegistration {
  streamAdminID : string;
  hubURL : URL;
  hubID : string
}.

Record Store : Type := mkStore {
  streams : list UserStreamData;
  registrations : list Registration
}.

Section Manager.

(** The error raised for the kind [UnknownStream], and the handle under
    which a callback target is registered. *)
Variable UnknownStream : JsError.
Variable handle_of : URL -> string.

(** An admin token resolves when some stream of the store carries it. *)
Definition resolves (st : Store) (adminID : string) : bool :=
  existsb (fun s => String.eqb (admin s) adminID) (streams st).

Definition connect (st : Store) (adminID : string) (target : URL) : result Store :=
  if resolves st adminID then
    Ok {| streams := streams st;
          registrations :=
            registrations st ++
              [{| streamAdminID := adminID; hubURL := target; hubID := handle_of target |}] |}
  else Throw UnknownStream.

Definition disconnect (st : Store) (adminID : string) (handle : string) : result Store :=
  if resolves st adminID then
    Ok {| streams := streams st;
          registrations :=
            filter (fun g => negb (andb (String.eqb (streamAdminID g) adminID)
                                        (String.eqb (hubID g) handle)))
                   (registrations st) |}
  else Throw UnknownStream.

Definition list_ (st : Store) (adminID : string) : result (list string) :=
  if resolves st adminID then
    Ok (map hubID
          (filter (fun g => String.eqb (streamAdminID g) adminID) (registrations st)))
  else Throw UnknownStream.

(** The three hub actions of a [RequestsActionsProvider] served by the
    manager over the store [st]; [undefined] resolves to no stream. The
    other actions are those of [base]. *)
Definition serve (st : Store) (base : RequestsActionsProvider) : RequestsActionsProvider :=
  {| createStream := createStream base;
     fetchStream := fetchStream base;
     processUploadFormData := processUploadFormData base;
     connectStreamToHub := fun target id =>
       Returned (match id with
                 | Some a => bind (connect st a target) (fun _ => Ok tt)
                 | None => Throw UnknownStream
                 end);
     disconnectStreamFromHub := fun handle id =>
       match id with
       | Some a => bind (disconnect st a handle) (fun _ => Ok tt)
       | None => Throw UnknownStream
       end;
     connectedHubs := fun id =>
       match id with
       | Some a => list_ st a
       | None => Throw UnknownStream
       end;
     encodeText := encodeText base;
     decodeText := decodeText base |}.

End Manager.

End HubManager.

(** ** A concrete deployment, for evaluating the handlers *)

Module Demo.

Import RequestHandler.

(** Modelled from the spec: the Identifier Validator (section 4.1) is not
    among the sources: a token is valid iff it has the configured length
    and every character is drawn from the configured alphabet. *)
Fixpoint drawn_from (alphabet : string) (c : ascii) : bool :=
  match alphabet with
  | EmptyString => false
  | String a rest => orb (Ascii.eqb a c) (drawn_from rest c)
  end.

Fixpoint all_drawn_from (alphabet : string) (token : string) : bool :=
  match token with
  | EmptyString => true
  | String c rest => andb (drawn_from alphabet c) (all_drawn_from alphabet rest)
  end.

Definition isValidIdentifier (len : nat) (alphabet : string) (token : option string) : bool :=
  match token with
  | None => false
  | Some t => andb (Nat.eqb (String.length t) len) (all_drawn_from alphabet t)
  end.

Definition alphabet : string :=
  "abcdefghijklmnopqrstuvwxyzABCDEFGHIJKLMNOPQRSTUVWXYZ0123456789_-".

Definition uuid : RequestsUUIDProvider :=
  {| validateUUID := isValidIdentifier 10 alphabet |}.

Definition adminA : string := "AAAAAAAAAA".
Definition publicP : string := "PPPPPPPPPP".
Definition hubH : string := "HHHHHHHHHH".
Definition segmentS : string := "SSSSSSSSSS".

Definition streamA : UserStreamData :=
  {| admin := adminA; download := publicP; hub := hubH |}.

Definition UnknownStream : JsError := mkError "Unknown stream".

(** [new URL( text )] reduced to a check of the scheme. *)
Definition new_URL (text : string) : result URL :=
  if String.prefix "https://" text then Ok text
  else Throw (mkError "Invalid URL").

(** A store that knows the single stream [streamA]. *)
Definition store : HubManager.Store :=
  {| HubManager.streams := [streamA]; HubManager.registrations := [] |}.

(** The actions the hub manager does not serve; the upload action is
    supplied by the caller. *)
Definition base (upload : ServerRequest -> option string -> Promise unit)
  : RequestsActionsProvider :=
  {| createStream := Ok streamA;
     fetchStream := fun id =>
       if is_lit id adminA then Ok streamA else Throw UnknownStream;
     processUploadFormData := upload;
     connectStreamToHub := fun _ _ => Returned (Ok tt);
     disconnectStreamFromHub := fun _ _ => Ok tt;
     connectedHubs := fun _ => Ok [];
     encodeText := list_byte_of_string;
     decodeText := string_of_list_byte |}.

(** All actions, the hub actions served by the manager over [store]. *)
Definition actions (upload : ServerRequest -> option string -> Promise unit)
  : RequestsActionsProvider :=
  HubManager.serve UnknownStream (fun target => target) store (base upload).

Definition no_upload : ServerRequest -> option string -> Promise unit :=
  fun _ _ => Ok tt.

(** A playlist store with one segment after the cursor [segmentS] and two
    in all. *)
Definition later : Segment :=
  {| segmentID := "TTTTTTTTTT"; streamPublicID := publicP;
     segmentURL := "https://files.example/PPPPPPPPPP/TTTTTTTTTT.opus" |}.

Definition first : Segment :=
  {| segmentID := segmentS; streamPublicID := publicP;
     segmentURL := "https://files.example/PPPPPPPPPP/SSSSSSSSSS.opus" |}.

Definition data : RequestsDataProvider :=
  {| getSegmentList := fun pub cur =>
       if is_lit pub publicP then
         if is_lit cur segmentS then Ok [later] else Ok [first; later]
       else Throw UnknownStream |}.

Definition request (m u : string) (len : option Z) (payload : string) : ServerRequest :=
  {| method := m; url := u; req_headers := [];
     contentLength := len;
     req_body := Ok (list_byte_of_string payload);
     r := list_byte_of_string payload |}.

End Demo.

Module UploadDemo.

Import UploadFormHandler.

Definition core : UploadCoreProvider :=
  {| rootDir := "/srv/sludge"; fileURL := "https://files.example/" |}.

(** The metadata store: it resolves the admin token of [Demo.streamA] only;
    [registration] is the outcome of registering a segment. *)
Definition data (registration : Promise unit) : UploadDataProvider :=
  {| addSegmentURL := fun _ _ _ => registration;
     getStreamPublicIDFromStreamAdminID := fun id =>
       if RequestHandler.is_lit id Demo.adminA then Ok Demo.publicP
       else Throw Demo.UnknownStream |}.

Definition random : UploadRandomProvider :=
  {| uuid := Ok Demo.segmentS |}.

(** A multipart reader that insists on the delimiter line: the bytes must
    start with two dashes and the boundary it was given, and then it yields
    [form]; otherwise it fails as the library does at the end of input. *)
Definition reader (form : MultipartFormData) (bytes : Uint8Array) (boundary : string)
  : Promise MultipartFormData :=
  if String.prefix (String.append "--" boundary) (string_of_list_byte bytes)
  then Ok form
  else Throw (mkError "UnexpectedEof").

Definition platform (form : MultipartFormData) : Platform :=
  {| readForm := reader form;
     join := String.concat "/";
     open := fun _ => Ok 3%Z;
     write := fun _ bytes => Ok (Z.of_nat (List.length bytes));
     new_URL := fun relative base => Ok (String.append base relative) |}.

Definition form_with (audio : file_field) : MultipartFormData :=
  {| file := fun name => if String.eqb name "audio" then audio else NoFile |}.

Definition opus (bytes : Uint8Array) : FormFile :=
  {| filename := "chunk.opus"; content := Some bytes |}.

(** An upload whose header is [contentType] and whose body opens with the
    delimiter line [--delimiter]. *)
Definition upload (contentType : option string) (delimiter : string) : ServerRequest :=
  {| method := "POST";
     url := String.append "/" Demo.adminA;
     req_headers := match contentType with
                    | Some v => [("content-type", v)]
                    | None => []
                    end;
     contentLength := Some 64%Z;
     req_body := Ok (list_byte_of_string (String.append "--" delimiter));
     r := list_byte_of_string (String.append "--" delimiter) |}.

Definition multipart : option string := Some "multipart/form-data; boundary=XYZ".

End UploadDemo.

(** ** configure.ts: class [Configure] *)

Module Configure.

(** The calls with an effect outside the class, in the order made:
    [console.log], [Deno.writeTextFile], [Deno.run] with the wait for the
    exit status of the process, and the [close] of that process. *)
Inductive event : Type :=
| ConsoleLog (args : list string)
| WriteTextFile (path text : string)
| Run (cmd : list string)
| Close (cmd : list string).

Definition M (A : Type) : Type := (list event * result A)%type.

Definition ret {A : Type} (a : A) : M A := ([], Ok a).

Definition throw {A : Type} (e : JsError) : M A := ([], Throw e).

Definition mbind {A B : Type} (m : M A) (k : A -> M B) : M B :=
  match m with
  | (t, Ok a) => let (t', b) := k a in (t ++ t', b)
  | (t, Throw e) => (t, Throw e)
  end.

Definition perform {A : Type} (ev : event) (outcome : result A) : M A :=
  ([ev], outcome).

Notation "x <- c ;; k" := (mbind c (fun x => k))
  (at level 61, c at next level, right associativity).

Definition trace {A : Type} (m : M A) : list event := fst m.

Definition outcome {A : Type} (m : M A) : result A := snd m.

Definition newline : string := String "010" EmptyString.

(** The platform as the class reads it: [Deno.build.os], [join] of the
    path library, [Deno.env.get], [Deno.cwd()], [Deno.writeTextFile], and
    [Deno.run] followed by [status()], which yields the exit code. *)
Record Platform : Type := mkPlatform {
  os : string;
  join : list string -> string;
  env_get : string -> option string;
  cwd : string;
  writeTextFile : string -> string -> Promise unit;
  run : list string -> result Z
}.

Section Numbers.

(** JavaScript numbers are kept abstract: their product, their literals,
    their rendering inside a template literal and their truthiness. *)
Variable number : Type.
Variable times : number -> number -> number.
Variable literal : Z -> number.
Variable show : number -> string.
Variable truthy : number -> bool.

Definition nginxTemplate (port : number) (serverName : string)
    (sludgePort cacheAgeSeconds : number) (rootFilePath : string) : string :=
  String.concat newline
    ["server";
     "{";
     ("	listen					" ++ show port ++ ";")%string;
     EmptyString;
     ("	server_name				" ++ serverName ++ ";")%string;
     "	";
     "	gzip					on;";
     "	";
     "	gzip_types				text/plain application/xml;";
     EmptyString;
     EmptyString;
     "	# adminID/publicID path handling (multipart form post segment, playlist get)";
     EmptyString;
     ("	location ~ " ++ dquote ++ "^/[a-zA-Z0-9_-]{10,}" ++ dquote ++ " ")%string;
     "	{";
     ("		proxy_pass			http://127.0.0.1:" ++ show sludgePort ++ ";")%string;
     EmptyString;
     "		proxy_set_header Host		$host;";
     EmptyString;
     "		proxy_set_header X-Real-IP	$remote_addr;";
     "	}";
     EmptyString;
     EmptyString;
     "	# stream create";
     "    ";
     "	location /stream ";
     "	{";
     ("		proxy_pass			http://127.0.0.1:" ++ show sludgePort ++ "/stream;")%string;
     EmptyString;
     "		proxy_set_header Host		$host;";
     EmptyString;
     "		proxy_set_header X-Real-IP	$remote_addr;";
     "	}";
     EmptyString;
     EmptyString;
     "	# audio files";
     "    ";
     ("	location ~ " ++ dquote ++ "^/audio/([a-zA-Z0-9_-]{10,})/([a-zA-Z0-9_-]{1,}\.opus)$" ++ dquote ++ " ")%string;
     "	{";
     "		add_header 			'Access-Control-Allow-Origin' '*';";
     EmptyString;
     "		add_header 			'Access-Control-Allow-Methods' 'GET, OPTIONS';";
     EmptyString;
     "		add_header 			'Access-Control-Allow-Headers' 'DNT,User-Agent,X-Requested-With,If-Modified-Since,Cache-Control,Content-Type,Range';";
     EmptyString;
     "		add_header 			'Access-Control-Expose-Headers' 'Content-Length,Content-Range';";
     EmptyString;
     ("		add_header 			'Cache-Control' 'public, max-age=" ++ show cacheAgeSeconds ++ ", immutable';")%string;
     EmptyString;
     ("		alias				" ++ rootFilePath ++ "/audio/$1/$2;")%string;
     "	}";
     "}"].

Definition serviceTemplate (user projectPath filesURL publicURL : string)
    (sludgePort : number) (sludgeDir : string) (idLength : number)
    (idAlphabet : string) : string :=
  String.concat newline
    ["[Unit]";
     "Description=sludge server";
     "After=network.target";
     EmptyString;
     "[Service]";
     "Type=simple";
     ("User=" ++ user)%string;
     ("WorkingDirectory=" ++ projectPath)%string;
     ("Environment=" ++ dquote ++ "SLUDGE_FILES=" ++ filesURL ++ dquote)%string;
     ("Environment=" ++ dquote ++ "SLUDGE_PUBLIC=" ++ publicURL ++ dquote)%string;
     ("Environment=" ++ dquote ++ "SLUDGE_PORT=" ++ show sludgePort ++ dquote)%string;
     ("Environment=" ++ dquote ++ "SLUDGE_DIR=" ++ sludgeDir ++ dquote)%string;
     ("Environment=" ++ dquote ++ "ID_LENGTH=" ++ show idLength ++ dquote)%string;
     ("Environment=" ++ dquote ++ "ID_ALPHABET=" ++ idAlphabet ++ dquote)%string;
     "ExecStart=/usr/bin/make run";
     "Restart=on-failure";
     EmptyString;
     "[Install]";
     "WantedBy=multi-user.target"].

(** The private members of an instance after the constructor has run. *)
Record Configure : Type := mkConfigure {
  environment : string;
  nginxPort : number;
  serverName : string;
  sludgePort : number;
  rootFilePath : string;
  idLength : option number;
  idAlphabet : option string;
  serviceFileName : string;
  filesURL : option URL;
  publicURL : option URL;
  nginxPath : string;
  servicePath : string;
  cacheAgeSeconds : number
}.

(** A parameter with a default value: the default replaces [undefined]. *)
Definition default (given : option string) (value : string) : string :=
  match given with
  | Some v => v
  | None => value
  end.

Variable platform : Platform.

Definition constructor (environment : option string) (nginxPort : number)
    (serverName : string) (sludgePort : number) (rootFilePath : string)
    (cacheAgeDays : number) (idLength : option number)
    (idAlphabet : option string) (nginxConfFileName serviceFileName : option string)
    (filesURL publicURL : option URL) : Configure :=
  let environment := default environment "development" in
  let nginxConfFileName := default nginxConfFileName "sludge_nginx" in
  let serviceFileName := default serviceFileName "sludge_server" in
  {| environment := environment;
     nginxPort := nginxPort;
     serverName := serverName;
     sludgePort := sludgePort;
     rootFilePath := rootFilePath;
     idLength := idLength;
     idAlphabet := idAlphabet;
     serviceFileName := serviceFileName;
     filesURL := filesURL;
     publicURL := publicURL;
     nginxPath :=
       if String.eqb environment "test"
       then join platform [rootFilePath; String.append nginxConfFileName ".conf"]
       else if String.eqb (os platform) "linux"
            then join platform
                   ["/etc/nginx/sites-enabled"; String.append nginxConfFileName ".conf"]
            else join platform
                   ["/usr/local/etc/nginx/servers";
                    String.append nginxConfFileName ".conf"];
     servicePath :=
       String.append "/etc/systemd/system/"
         (String.append serviceFileName ".service");
     cacheAgeSeconds :=
       times (times (times cacheAgeDays (literal 24)) (literal 60)) (literal 60) |}.

Definition nginx_of (c : Configure) : string :=
  nginxTemplate (nginxPort c) (serverName c) (sludgePort c) (cacheAgeSeconds c)
    (rootFilePath c).

Definition test (c : Configure) : M unit :=
  _ <- perform (ConsoleLog ["Writing file to"; nginxPath c]) (Ok tt) ;;
  let nginx := nginx_of c in
  _ <- perform (WriteTextFile (nginxPath c) nginx)
               (await (writeTextFile platform (nginxPath c) nginx)) ;;
  perform (ConsoleLog [nginx]) (Ok tt).

Definition restartService (type : string) : M unit :=
  let cmd := if String.eqb type "osx"
             then ["brew"; "services"; "restart"; "nginx"]
             else ["sudo"; "service"; "nginx"; "restart"] in
  code <- perform (Run cmd) (run platform cmd) ;;
  if negb (code =? 0)%Z then throw (mkError "Error restarting nginx")
  else perform (Close cmd) (Ok tt).

Definition development (c : Configure) : M unit :=
  _ <- perform (ConsoleLog ["Writing file to"; nginxPath c]) (Ok tt) ;;
  let template := nginx_of c in
  if String.eqb (os platform) "darwin" then
    _ <- perform (WriteTextFile (nginxPath c) template)
                 (await (writeTextFile platform (nginxPath c) template)) ;;
    restartService "osx"
  else if String.eqb (os platform) "linux" then
    _ <- perform (WriteTextFile (nginxPath c) template)
                 (await (writeTextFile platform (nginxPath c) template)) ;;
    restartService "linux"
  else
    throw (mkError (String.append "Unknown OS: No support for " (os platform))).

(** [Deno.env.get( `SUDO_USER` ) ?? Deno.env.get( `USER` )] *)
Definition user_of_env : option string :=
  match env_get platform "SUDO_USER" with
  | Some u => Some u
  | None => env_get platform "USER"
  end.

(** A command that must exit with code 0; the process is closed after. *)
Definition systemctl (verb name failure : string) : M unit :=
  let cmd := ["sudo"; "systemctl"; verb; name] in
  code <- perform (Run cmd) (run platform cmd) ;;
  if negb (code =? 0)%Z then throw (mkError failure)
  else perform (Close cmd) (Ok tt).

(** The part of [production] after the restart of nginx. A member that
    is [undefined] is falsy; so are the number for which [truthy] fails and
    the empty string. *)
Definition install_service (c : Configure) : M unit :=
  match user_of_env with
  | None => throw (mkError "Could not get user from $USER env var.")
  | Some EmptyString => throw (mkError "Could not get user from $USER env var.")
  | Some user =>
      match filesURL c with
      | None => throw (mkError "Files URL required for production.")
      | Some files =>
          match publicURL c with
          | None => throw (mkError "Public URL required for production.")
          | Some public =>
              match idLength c with
              | None => throw (mkError "ID length required for production.")
              | Some len =>
                  if negb (truthy len) then
                    throw (mkError "ID length required for production.")
                  else
                    match idAlphabet c with
                    | None => throw (mkError "ID Alphabet required for production.")
                    | Some EmptyString =>
                        throw (mkError "ID Alphabet required for production.")
                    | Some alphabet =>
                        _ <- perform (ConsoleLog ["Writing file to"; servicePath c])
                                     (Ok tt) ;;
                        let text :=
                          serviceTemplate user (cwd platform) files public
                            (sludgePort c) (rootFilePath c) len alphabet in
                        _ <- perform (WriteTextFile (servicePath c) text)
                                     (await (writeTextFile platform (servicePath c)
                                               text)) ;;
                        _ <- systemctl "start" (serviceFileName c)
                                       "Error starting service" ;;
                        systemctl "enable" (serviceFileName c)
                          "Error enabling service"
                    end
              end
          end
      end
  end.

Definition production (c : Configure) : M unit :=
  if negb (String.eqb (os platform) "linux") then
    throw (mkError (String.append
                      "Production only available for linux. No support for "
                      (os platform)))
  else
    _ <- perform (ConsoleLog ["Writing file to"; nginxPath c]) (Ok tt) ;;
    _ <- perform (WriteTextFile (nginxPath c) (nginx_of c))
                 (await (writeTextFile platform (nginxPath c) (nginx_of c))) ;;
    _ <- restartService "linux" ;;
    install_service c.

Definition generate (c : Configure) : M unit :=
  if String.eqb (environment c) "development" then development c
  else if String.eqb (environment c) "production" then production c
  else if String.eqb (environment c) "test" then test c
  else throw (mkError (String.append "Unknown environment: No support for "
                         (environment c))).

End Numbers.

End Configure.

(** A machine for evaluating [Configure]: numbers are integers, rendered
    in decimal. *)
Module ConfigureDemo.

Import Configure.

Definition show (n : Z) : string :=
  DecimalString.NilZero.string_of_int (Z.to_int n).

Definition nonzero (n : Z) : bool := negb (n =? 0)%Z.

(** A machine of the given system on which every write and every command
    succeeds, run through sudo by the user [relay]. *)
Definition machine (system : string) : Platform :=
  {| os := system;
     join := String.concat "/";
     env_get := fun name =>
       if String.eqb name "SUDO_USER" then Some "relay" else None;
     cwd := "/home/relay/sludge";
     writeTextFile := fun _ _ => Ok tt;
     run := fun _ => Ok 0%Z |}.

Definition configure (system : string) (environment : option string)
    (idLength : option Z) (filesURL : option URL) : Configure Z :=
  constructor Z Z.mul (fun n => n) (machine system)
    environment 8080%Z "relay.example" 8000%Z "/srv/sludge" 7%Z
    idLength (Some "abcdef0123456789") None None
    filesURL (Some "https://relay.example/").

Definition generate_on (system : string) (c : Configure Z) : M unit :=
  generate Z show nonzero (machine system) c.

End ConfigureDemo.

(** * Auxiliary definitions for the statements *)

Import RequestHandler.
Import UploadFormHandler.

Definition json_headers : Headers := [("content-type", "application/json")].

Definition cors_headers : Headers :=
  [("access-control-allow-origin", "*");
   ("access-control-allow-method", "GET");
   ("access-control-allow-headers",
    "Origin, X-Requested-With, Content-Type, Accept, Range")].

(** What the [try]/[catch] of a method handler makes of its [try] block:
    the block's own response, which has status 200, or the 404 response
    whose body is the message of the error thrown. *)
Definition caught (action : RequestsActionsProvider)
    (attempt : result Response) (res : Response) : Prop :=
  match attempt with
  | Ok r => res = r /\ status r = 200%Z
  | Throw e =>
      res = {| body := Some (encodeText action (message e));
               status := 404;
               headers := None |}
  end.

(** [occurs needle s]: [needle] is a contiguous part of [s]. *)
Fixpoint occurs (needle s : string) : bool :=
  orb (String.prefix needle s)
      (match s with
       | EmptyString => false
       | String _ rest => occurs needle rest
       end).

(** The request POST /stream. *)
Definition post_stream : ServerRequest :=
  Demo.request "POST" "/stream" None EmptyString.

(** The request PUT /BBBBBBBBBB/admin with a hub URL as body, for an admin
    token that resolves to no stream. *)
Definition put_unknown : ServerRequest :=
  Demo.request "PUT" "/BBBBBBBBBB/admin" (Some 28%Z) "https://hub.example/callback".

(** The 404 response carrying the message of [e]. *)
Definition not_found (action : RequestsActionsProvider) (e : JsError) : Response :=
  {| body := Some (encodeText action (message e)); status := 404; headers := None |}.

(** The request DELETE /BBBBBBBBBB/admin with a hub handle as body. *)
Definition delete_unknown_request : ServerRequest :=
  Demo.request "DELETE" "/BBBBBBBBBB/admin" (Some 10%Z) Demo.hubH.

Definition missing_header : JsError :=
  mkError (String.append "Missing content type header" newline).

(** The run after a successful resolution and a successful read of the
    form. *)
Definition after_form (core : UploadCoreProvider) (data : UploadDataProvider)
    (random : UploadRandomProvider) (platform : Platform)
    (pub : string) (form : MultipartFormData) : M unit :=
  match file form "audio" with
  | NoFile => ret tt
  | ManyFiles _ => ret tt
  | OneFile formFile =>
      match content formFile with
      | None => ret tt
      | Some bytes => store_segment core data random platform pub bytes
      end
  end.

(** The metadata store of the demonstration fails to register. *)
Definition failing_store : UploadDataProvider :=
  UploadDemo.data (Throw (mkError "store unavailable")).

Definition two_bytes : MultipartFormData :=
  UploadDemo.form_with (OneFile (UploadDemo.opus [x01; x02])).

(** The upload action of the dispatcher, served by [process]. *)
Definition served (data : UploadDataProvider) (form : MultipartFormData)
  : ServerRequest -> option string -> Promise unit :=
  fun req id =>
    outcome (process UploadDemo.core data UploadDemo.random
               (UploadDemo.platform form) req id).

(** Counting the files written and the segments registered in a run. *)
Definition is_write (ev : event) : bool :=
  match ev with
  | Write _ _ => true
  | _ => false
  end.

Definition is_registration (ev : event) : bool :=
  match ev with
  | AddSegmentURL _ _ _ => true
  | _ => false
  end.

Definition files_written (t : list event) : nat :=
  List.length (filter is_write t).

Definition segments_registered (t : list event) : nat :=
  List.length (filter is_registration t).

(** A form whose single [audio] file has a content of zero bytes. *)
Definition zero_bytes : MultipartFormData :=
  UploadDemo.form_with (OneFile (UploadDemo.opus [])).

(** ** Auxiliary definitions for the further properties *)

(** [slash_free s]: the character [/] does not occur in [s]. *)
Fixpoint slash_free (s : string) : bool :=
  match s with
  | EmptyString => true
  | String c rest => andb (negb (Ascii.eqb c "/")) (slash_free rest)
  end.

(** [equals_free s]: the character [=] does not occur in [s]. *)
Fixpoint equals_free (s : string) : bool :=
  match s with
  | EmptyString => true
  | String c rest => andb (negb (Ascii.eqb c "=")) (equals_free rest)
  end.

(** The response to a request that fails with the error [e]. *)
Definition error_response (action : RequestsActionsProvider) (e : JsError) : Response :=
  {| body := Some (encodeText action (message e)); status := 404; headers := None |}.

(** The response to a request that succeeds without a result. *)
Definition empty_response : Response :=
  {| body := None; status := 200; headers := None |}.

(** The demonstration platform with a [new URL] that always throws. *)
Definition no_url_platform : Platform :=
  {| readForm := UploadDemo.reader two_bytes;
     join := String.concat "/";
     open := fun _ => Ok 3%Z;
     write := fun _ bytes => Ok (Z.of_nat (List.length bytes));
     new_URL := fun _ _ => Throw (mkError "Invalid URL") |}.

(** A machine on which every write succeeds, with the given system, the
    given values of the variables SUDO_USER and USER, and the given exit
    code for each command. *)
Definition custom_machine (system : string) (sudo_user user : option string)
    (exit_code : list string -> Z) : Configure.Platform :=
  {| Configure.os := system;
     Configure.join := String.concat "/";
     Configure.env_get := fun name =>
       if String.eqb name "SUDO_USER" then sudo_user
       else if String.eqb name "USER" then user
       else None;
     Configure.cwd := "/home/relay/sludge";
     Configure.writeTextFile := fun _ _ => Ok tt;
     Configure.run := fun cmd => Ok (exit_code cmd) |}.

(** The command that restarts nginx on Linux, and the events of a
    production run up to and including that restart. *)
Definition restart_linux : list string := ["sudo"; "service"; "nginx"; "restart"].

Definition nginx_installed {number : Type} (show : number -> string)
    (c : Configure.Configure number) : list Configure.event :=
  [Configure.ConsoleLog ["Writing file to"; Configure.nginxPath number c];
   Configure.WriteTextFile (Configure.nginxPath number c)
     (Configure.nginx_of number show c);
   Configure.Run restart_linux;
   Configure.Close restart_linux].


(** * Properties *)

(** ** Shared lemmas on the dispatcher *)

(** Case analysis on every test a handler makes. *)
Ltac atomic x :=
  lazymatch x with
  | context [if _ then _ else _] => fail
  | context [match _ with Ok _ => _ | Throw _ => _ end] => fail
  | context [match _ with Threw _ => _ | Returned _ => _ end] => fail
  | _ => idtac
  end.

Ltac handler_cases :=
  repeat match goal with
         | |- context [if ?b then _ else _] => atomic b; destruct b eqn:?
         | |- context [match ?x with Ok _ => _ | Throw _ => _ end] =>
             atomic x; destruct x eqn:?
         | |- context [match ?x with Threw _ => _ | Returned _ => _ end] =>
             atomic x; destruct x eqn:?
         end.

Ltac unfold_handlers :=
  unfold handle, selectMethod, get, post, put, delete, get_try, post_try,
    put_try, delete_try, try_catch, bind, await, failure, json_response.

Section Dispatcher.

Variable action : RequestsActionsProvider.
Variable data : RequestsDataProvider.
Variable uuid : RequestsUUIDProvider.
Variable new_URL : string -> result URL.

Lemma set_content_type :
  set "content-type" "application/json" new_Headers = json_headers.
Proof. reflexivity. Qed.

Lemma setCORS_headers res :
  headers (setCORS res)
  = Some (match headers res with Some hs => hs | None => [] end ++ cors_headers).
Proof.
  unfold setCORS, append, new_Headers; simpl.
  destruct (headers res) as [hs|]; simpl; [|reflexivity].
  now rewrite <- !app_assoc.
Qed.

Lemma setCORS_status res : status (setCORS res) = status res.
Proof. reflexivity. Qed.

Lemma setCORS_body res : body (setCORS res) = body res.
Proof. reflexivity. Qed.

(** Before [setCORS], a response has no headers or only the JSON content
    type. *)
Lemma selectMethod_headers req :
  headers (selectMethod action data uuid new_URL req) = None \/
  headers (selectMethod action data uuid new_URL req) = Some json_headers.
Proof.
  unfold_handlers. rewrite set_content_type.
  handler_cases; simpl; auto.
Qed.

End Dispatcher.

(** ** CORS headers *)

(** C8. Every response the handler sends carries the three CORS headers:
    whatever the request (any method, success or failure, the OPTIONS
    preflight and the unrecognised-method response included), the response
    handed to [req.respond] is [setCORS] of the selected handler's response,
    and its headers end with the allow-origin [*], allow-method and
    allow-headers entries, each readable under its name. *)
Theorem every_response_carries_cors
    (action : RequestsActionsProvider) (data : RequestsDataProvider)
    (uuid : RequestsUUIDProvider) (new_URL : string -> result URL)
    (req : ServerRequest) :
  handle action data uuid new_URL req
    = setCORS (selectMethod action data uuid new_URL req) /\
  exists earlier,
    headers (handle action data uuid new_URL req)
      = Some (earlier ++
              [("access-control-allow-origin", "*");
               ("access-control-allow-method", "GET");
               ("access-control-allow-headers",
                "Origin, X-Requested-With, Content-Type, Accept, Range")]) /\
    Js.get "access-control-allow-origin" (earlier ++ cors_headers) = Some "*" /\
    Js.get "access-control-allow-method" (earlier ++ cors_headers) = Some "GET" /\
    Js.get "access-control-allow-headers" (earlier ++ cors_headers)
      = Some "Origin, X-Requested-With, Content-Type, Accept, Range".
Proof.
  split; [reflexivity|].
  unfold handle. rewrite setCORS_headers.
  destruct (selectMethod_headers action data uuid new_URL req) as [H | H];
    rewrite H.
  - exists []. repeat split; reflexivity.
  - exists json_headers. repeat split; reflexivity.
Qed.

(** C10. The CORS headers advertise only the GET method: for every request,
    of any method, the response carries exactly one header named
    [access-control-allow-method] (singular), its value is [GET], and no
    header named [access-control-allow-methods] is present. *)
Theorem cors_advertises_get_only
    (action : RequestsActionsProvider) (data : RequestsDataProvider)
    (uuid : RequestsUUIDProvider) (new_URL : string -> result URL)
    (req : ServerRequest) :
  exists hs,
    headers (handle action data uuid new_URL req) = Some hs /\
    filter (named "access-control-allow-method") hs
      = [("access-control-allow-method", "GET")] /\
    Js.get "access-control-allow-method" hs = Some "GET" /\
    Js.get "access-control-allow-methods" hs = None.
Proof.
  unfold handle. rewrite setCORS_headers.
  destruct (selectMethod_headers action data uuid new_URL req) as [H | H];
    rewrite H; eexists; (split; [reflexivity|]); repeat split; reflexivity.
Qed.

(** ** Playlist cursor *)

(** C7. For a GET request whose first path segment is a valid identifier
    [p] and whose second segment [x] is neither [hubs] nor [admin], the
    cursor of the segment-list query is decided by the validator alone:
    [x] when it validates, no cursor when it does not; the response is the
    JSON of what that query returns (404 with its message if it fails). *)
Theorem cursor_decided_by_validator
    (action : RequestsActionsProvider) (data : RequestsDataProvider)
    (uuid : RequestsUUIDProvider) (new_URL : string -> result URL)
    (req : ServerRequest) (p x : string) :
  method req = "GET" ->
  at_ (path_of req) 1 = Some p ->
  at_ (path_of req) 2 = Some x ->
  validateUUID uuid (Some p) = true ->
  String.eqb x "hubs" = false ->
  String.eqb x "admin" = false ->
  selectMethod action data uuid new_URL req
  = match getSegmentList data (Some p)
            (if validateUUID uuid (Some x) then Some x else None) with
    | Ok l =>
        {| body := Some (encodeText action (JSON_stringify (json_of_segments l)));
           status := 200;
           headers := Some [("content-type", "application/json")] |}
    | Throw e =>
        {| body := Some (encodeText action (message e));
           status := 404;
           headers := None |}
    end.
Proof.
  intros Hm H1 H2 Hp Hh Ha.
  unfold selectMethod. rewrite Hm. simpl String.eqb. cbv iota.
  unfold get, get_try, cursor. rewrite H1, H2, Hp. simpl negb. cbv iota.
  unfold is_lit. rewrite Hh, Ha, set_content_type.
  unfold try_catch, bind, await, json_response, failure.
  destruct (getSegmentList data (Some p) _); reflexivity.
Qed.

(** GET /PPPPPPPPPP/SSSSSSSSSS on the demonstration deployment. *)
Lemma cursor_decided_by_validator_witness :
  selectMethod (Demo.actions Demo.no_upload) Demo.data Demo.uuid Demo.new_URL
    (Demo.request "GET" "/PPPPPPPPPP/SSSSSSSSSS" None EmptyString)
  = {| body := Some (list_byte_of_string
                       (JSON_stringify (json_of_segments [Demo.later])));
       status := 200;
       headers := Some [("content-type", "application/json")] |}.
Proof.
  exact (cursor_decided_by_validator
           (Demo.actions Demo.no_upload) Demo.data Demo.uuid Demo.new_URL
           (Demo.request "GET" "/PPPPPPPPPP/SSSSSSSSSS" None EmptyString)
           Demo.publicP Demo.segmentS
           eq_refl eq_refl eq_refl eq_refl eq_refl eq_refl).
Defined.

(** ** The failure boundary *)

Section Boundary.

Variable action : RequestsActionsProvider.
Variable data : RequestsDataProvider.
Variable uuid : RequestsUUIDProvider.
Variable new_URL : string -> result URL.

Lemma get_caught req :
  caught action (get_try action data uuid req (path_of req))
         (get action data uuid req).
Proof.
  unfold get, try_catch.
  destruct (get_try action data uuid req (path_of req)) as [res | e] eqn:E;
    simpl; [split; [reflexivity|] | reflexivity].
  revert E. unfold get_try, bind, await, json_response.
  handler_cases; intros E; inversion E; reflexivity.
Qed.

Lemma post_caught req :
  caught action (post_try action uuid req (path_of req)) (post action uuid req).
Proof.
  unfold post, try_catch.
  destruct (post_try action uuid req (path_of req)) as [res | e] eqn:E;
    simpl; [split; [reflexivity|] | reflexivity].
  revert E. unfold post_try, bind, await, json_response.
  handler_cases; intros E; inversion E; reflexivity.
Qed.

Lemma put_caught req :
  caught action (put_try action uuid new_URL req (path_of req))
         (put action uuid new_URL req).
Proof.
  unfold put, try_catch.
  destruct (put_try action uuid new_URL req (path_of req)) as [res | e] eqn:E;
    simpl; [split; [reflexivity|] | reflexivity].
  revert E. unfold put_try, bind.
  handler_cases; intros E; inversion E; reflexivity.
Qed.

Lemma delete_caught req :
  caught action (delete_try action uuid req (path_of req))
         (delete action uuid req).
Proof.
  unfold delete, try_catch.
  destruct (delete_try action uuid req (path_of req)) as [res | e] eqn:E;
    simpl; [split; [reflexivity|] | reflexivity].
  revert E. unfold delete_try, bind, await.
  handler_cases; intros E; inversion E; reflexivity.
Qed.

Lemma caught_status attempt res :
  caught action attempt res -> status res = 200%Z \/ status res = 404%Z.
Proof.
  destruct attempt as [r' | e]; simpl.
  - intros [-> H]. now left.
  - intros ->. now right.
Qed.

End Boundary.

Section BoundaryFailures.

Variable action : RequestsActionsProvider.
Variable data : RequestsDataProvider.
Variable uuid : RequestsUUIDProvider.
Variable new_URL : string -> result URL.
Variable req : ServerRequest.

Lemma dispatch_by_method :
  (method req = "GET" ->
   selectMethod action data uuid new_URL req = get action data uuid req) /\
  (method req = "POST" ->
   selectMethod action data uuid new_URL req = post action uuid req) /\
  (method req = "PUT" ->
   selectMethod action data uuid new_URL req = put action uuid new_URL req) /\
  (method req = "DELETE" ->
   selectMethod action data uuid new_URL req = delete action uuid req).
Proof.
  repeat split; intros H; unfold selectMethod; rewrite H; reflexivity.
Qed.

Lemma get_failures :
  validateUUID uuid (at_ (path_of req) 1) = true ->
  (is_lit (at_ (path_of req) 2) "hubs" = true ->
   forall e,
     connectedHubs action (at_ (path_of req) 1) = Throw e ->
     get action data uuid req = error_response action e) /\
  (is_lit (at_ (path_of req) 2) "hubs" = false ->
   is_lit (at_ (path_of req) 2) "admin" = true ->
   forall e,
     fetchStream action (at_ (path_of req) 1) = Throw e ->
     get action data uuid req = error_response action e) /\
  (is_lit (at_ (path_of req) 2) "hubs" = false ->
   is_lit (at_ (path_of req) 2) "admin" = false ->
   forall e,
     getSegmentList data (at_ (path_of req) 1) (cursor uuid (path_of req)) = Throw e ->
     get action data uuid req = error_response action e).
Proof.
  intros Hv. unfold get, get_try, await. rewrite Hv. simpl negb. cbv iota.
  split; [|split].
  - intros Hh e He. rewrite Hh, He. reflexivity.
  - intros Hh Ha e He. rewrite Hh, Ha, He. reflexivity.
  - intros Hh Ha e He. rewrite Hh, Ha, He. reflexivity.
Qed.

Lemma post_failures :
  (is_lit (at_ (path_of req) 1) "stream" = true ->
   forall e,
     createStream action = Throw e ->
     post action uuid req = error_response action e) /\
  (is_lit (at_ (path_of req) 1) "stream" = false ->
   validateUUID uuid (at_ (path_of req) 1) = false ->
   post action uuid req = error_response action (mkError "Invalid path")) /\
  (is_lit (at_ (path_of req) 1) "stream" = false ->
   validateUUID uuid (at_ (path_of req) 1) = true ->
   forall e,
     processUploadFormData action req (at_ (path_of req) 1) = Throw e ->
     post action uuid req = error_response action e).
Proof.
  unfold post, post_try, await. split; [|split].
  - intros Hs e He. rewrite Hs, He. reflexivity.
  - intros Hs Hv. rewrite Hs, Hv. reflexivity.
  - intros Hs Hv e He. rewrite Hs, Hv, He. reflexivity.
Qed.

Lemma admin_failures :
  (validateUUID uuid (at_ (path_of req) 1) = false \/
   is_lit (at_ (path_of req) 2) "admin" = false ->
   put action uuid new_URL req = error_response action (mkError "Invalid path") /\
   delete action uuid req = error_response action (mkError "Invalid path")) /\
  (validateUUID uuid (at_ (path_of req) 1) = true ->
   is_lit (at_ (path_of req) 2) "admin" = true ->
   (truthy_number (contentLength req) = false ->
    put action uuid new_URL req = error_response action (mkError "No data") /\
    delete action uuid req = error_response action (mkError "No data")) /\
   (truthy_number (contentLength req) = true ->
    (forall e,
       req_body req = Throw e ->
       put action uuid new_URL req = error_response action e /\
       delete action uuid req = error_response action e) /\
    (forall bytes,
       req_body req = Ok bytes ->
       (forall e,
          new_URL (decodeText action bytes) = Throw e ->
          put action uuid new_URL req = error_response action e) /\
       (forall target e,
          new_URL (decodeText action bytes) = Ok target ->
          connectStreamToHub action target (at_ (path_of req) 1) = Threw e ->
          put action uuid new_URL req = error_response action e) /\
       (forall e,
          disconnectStreamFromHub action (decodeText action bytes)
            (at_ (path_of req) 1) = Throw e ->
          delete action uuid req = error_response action e) /\
       (disconnectStreamFromHub action (decodeText action bytes)
          (at_ (path_of req) 1) = Ok tt ->
        delete action uuid req = empty_response)))).
Proof.
  unfold put, put_try, delete, delete_try, await. split.
  - intros H.
    assert (G : orb (negb (validateUUID uuid (at_ (path_of req) 1)))
                    (negb (is_lit (at_ (path_of req) 2) "admin")) = true).
    { destruct H as [H | H]; rewrite H; simpl; [reflexivity|].
      apply orb_true_r. }
    rewrite G. split; reflexivity.
  - intros Hv Ha. rewrite Hv, Ha. simpl negb. simpl orb. cbv iota. split.
    + intros Hl. rewrite Hl. split; reflexivity.
    + intros Hl. rewrite Hl. simpl negb. cbv iota. split.
      * intros e He. rewrite He. split; reflexivity.
      * intros bytes Hb. rewrite Hb. simpl bind. split; [|split; [|split]].
        -- intros e He. rewrite He. reflexivity.
        -- intros target e Hu Hc. rewrite Hu. simpl bind. rewrite Hc.
           reflexivity.
        -- intros e He. rewrite He. reflexivity.
        -- intros He. rewrite He. reflexivity.
Qed.

End BoundaryFailures.

(** C9, as amended. For every request, each of the four method handlers
    answers with its [try] block's response (status 200) or, when the block
    throws an error (path validation, missing or unreadable body, malformed
    hub URL, an awaited operation that fails), with status 404 and exactly
    the error's message as body; these are the only statuses of a GET,
    POST, PUT or DELETE request. A GET whose first path segment fails
    validation yields 404 with [Invalid path]. The boundary does not cover
    the hub connection of PUT: its promise is not awaited, so once the
    call has handed back a promise the answer is 200 whatever the outcome
    of that promise. Spelled out per handler: the selected handler is the
    one of the request's method; a failing lookup of the hubs, of the
    stream record or of the segment list answers GET with 404 and the
    failure's message; a failing stream creation or upload, and an invalid
    first segment, do so for POST; an invalid path, a missing body, an
    unreadable body do so for PUT and DELETE, as do a malformed hub URL
    and a connect call that throws at once for PUT, and a failing
    disconnection for DELETE. *)
Theorem failure_boundary
    (action : RequestsActionsProvider) (data : RequestsDataProvider)
    (uuid : RequestsUUIDProvider) (new_URL : string -> result URL)
    (req : ServerRequest) :
  caught action (get_try action data uuid req (path_of req))
         (get action data uuid req) /\
  caught action (post_try action uuid req (path_of req))
         (post action uuid req) /\
  caught action (put_try action uuid new_URL req (path_of req))
         (put action uuid new_URL req) /\
  caught action (delete_try action uuid req (path_of req))
         (delete action uuid req) /\
  (method req = "GET" \/ method req = "POST" \/
   method req = "PUT" \/ method req = "DELETE" ->
   status (selectMethod action data uuid new_URL req) = 200%Z \/
   status (selectMethod action data uuid new_URL req) = 404%Z) /\
  (validateUUID uuid (at_ (path_of req) 1) = false ->
   get action data uuid req
   = {| body := Some (encodeText action "Invalid path");
        status := 404;
        headers := None |}) /\
  (forall bytes target settled,
     validateUUID uuid (at_ (path_of req) 1) = true ->
     at_ (path_of req) 2 = Some "admin" ->
     truthy_number (contentLength req) = true ->
     req_body req = Ok bytes ->
     new_URL (decodeText action bytes) = Ok target ->
     connectStreamToHub action target (at_ (path_of req) 1) = Returned settled ->
     put action uuid new_URL req
     = {| body := None; status := 200; headers := None |}) /\
  ((method req = "GET" ->
    selectMethod action data uuid new_URL req = get action data uuid req) /\
   (method req = "POST" ->
    selectMethod action data uuid new_URL req = post action uuid req) /\
   (method req = "PUT" ->
    selectMethod action data uuid new_URL req = put action uuid new_URL req) /\
   (method req = "DELETE" ->
    selectMethod action data uuid new_URL req = delete action uuid req)) /\
  (validateUUID uuid (at_ (path_of req) 1) = true ->
   (is_lit (at_ (path_of req) 2) "hubs" = true ->
    forall e,
      connectedHubs action (at_ (path_of req) 1) = Throw e ->
      get action data uuid req
      = {| body := Some (encodeText action (message e));
           status := 404;
           headers := None |}) /\
   (is_lit (at_ (path_of req) 2) "hubs" = false ->
    is_lit (at_ (path_of req) 2) "admin" = true ->
    forall e,
      fetchStream action (at_ (path_of req) 1) = Throw e ->
      get action data uuid req
      = {| body := Some (encodeText action (message e));
           status := 404;
           headers := None |}) /\
   (is_lit (at_ (path_of req) 2) "hubs" = false ->
    is_lit (at_ (path_of req) 2) "admin" = false ->
    forall e,
      getSegmentList data (at_ (path_of req) 1)
        (if validateUUID uuid (at_ (path_of req) 2)
         then at_ (path_of req) 2 else None) = Throw e ->
      get action data uuid req
      = {| body := Some (encodeText action (message e));
           status := 404;
           headers := None |})) /\
  ((is_lit (at_ (path_of req) 1) "stream" = true ->
    forall e,
      createStream action = Throw e ->
      post action uuid req
      = {| body := Some (encodeText action (message e));
           status := 404;
           headers := None |}) /\
   (is_lit (at_ (path_of req) 1) "stream" = false ->
    validateUUID uuid (at_ (path_of req) 1) = false ->
    post action uuid req
    = {| body := Some (encodeText action "Invalid path");
         status := 404;
         headers := None |}) /\
   (is_lit (at_ (path_of req) 1) "stream" = false ->
    validateUUID uuid (at_ (path_of req) 1) = true ->
    forall e,
      processUploadFormData action req (at_ (path_of req) 1) = Throw e ->
      post action uuid req
      = {| body := Some (encodeText action (message e));
           status := 404;
           headers := None |})) /\
  ((validateUUID uuid (at_ (path_of req) 1) = false \/
    is_lit (at_ (path_of req) 2) "admin" = false ->
    put action uuid new_URL req = error_response action (mkError "Invalid path") /\
    delete action uuid req = error_response action (mkError "Invalid path")) /\
   (validateUUID uuid (at_ (path_of req) 1) = true ->
    is_lit (at_ (path_of req) 2) "admin" = true ->
    (truthy_number (contentLength req) = false ->
     put action uuid new_URL req = error_response action (mkError "No data") /\
     delete action uuid req = error_response action (mkError "No data")) /\
    (truthy_number (contentLength req) = true ->
     (forall e,
        req_body req = Throw e ->
        put action uuid new_URL req = error_response action e /\
        delete action uuid req = error_response action e) /\
     (forall bytes,
        req_body req = Ok bytes ->
        (forall e,
           new_URL (decodeText action bytes) = Throw e ->
           put action uuid new_URL req = error_response action e) /\
        (forall target e,
           new_URL (decodeText action bytes) = Ok target ->
           connectStreamToHub action target (at_ (path_of req) 1) = Threw e ->
           put action uuid new_URL req = error_response action e) /\
        (forall e,
           disconnectStreamFromHub action (decodeText action bytes)
             (at_ (path_of req) 1) = Throw e ->
           delete action uuid req = error_response action e) /\
        (disconnectStreamFromHub action (decodeText action bytes)
           (at_ (path_of req) 1) = Ok tt ->
         delete action uuid req = empty_response))))).
Proof.
  split; [apply get_caught|].
  split; [apply post_caught|].
  split; [apply put_caught|].
  split; [apply delete_caught|].
  split; [|split; [|split; [|split; [|split; [|split]]]]].
  - intros [H | [H | [H | H]]]; unfold selectMethod; rewrite H; simpl String.eqb;
      cbv iota.
    + exact (caught_status action _ _ (get_caught action data uuid req)).
    + exact (caught_status action _ _ (post_caught action uuid req)).
    + exact (caught_status action _ _ (put_caught action uuid new_URL req)).
    + exact (caught_status action _ _ (delete_caught action uuid req)).
  - intros H. unfold get, get_try. rewrite H. reflexivity.
  - intros bytes target settled Hv Ha Hl Hb Hu Hc.
    unfold put, put_try. rewrite Hv, Ha, Hl, Hb. simpl. rewrite Hu. simpl.
    rewrite Hc. reflexivity.
  - exact (dispatch_by_method action data uuid new_URL req).
  - exact (get_failures action data uuid req).
  - exact (post_failures action uuid req).
  - exact (admin_failures action uuid new_URL req).
Qed.

(** GET /not-a-valid-id on the demonstration deployment, and GET
    /BBBBBBBBBB/hubs for a token its store does not know. *)
Lemma failure_boundary_witness :
  get (Demo.actions Demo.no_upload) Demo.data Demo.uuid
      (Demo.request "GET" "/not-a-valid-id" None EmptyString)
  = {| body := Some (list_byte_of_string "Invalid path");
       status := 404;
       headers := None |} /\
  get (Demo.actions Demo.no_upload) Demo.data Demo.uuid
      (Demo.request "GET" "/BBBBBBBBBB/hubs" None EmptyString)
  = {| body := Some (list_byte_of_string "Unknown stream");
       status := 404;
       headers := None |}.
Proof.
  split.
  - exact (proj1 (proj2 (proj2 (proj2 (proj2 (proj2
             (failure_boundary (Demo.actions Demo.no_upload) Demo.data Demo.uuid
                Demo.new_URL
                (Demo.request "GET" "/not-a-valid-id" None EmptyString)))))))
             eq_refl).
  - exact (proj1 (proj1 (proj2 (proj2 (proj2 (proj2 (proj2 (proj2 (proj2 (proj2
             (failure_boundary (Demo.actions Demo.no_upload) Demo.data Demo.uuid
                Demo.new_URL
                (Demo.request "GET" "/BBBBBBBBBB/hubs" None EmptyString))))))))))
             eq_refl) eq_refl Demo.UnknownStream eq_refl).
Defined.

(** C9 as stated fails on PUT: the connect operation fails (its promise is
    rejected with an error), yet the response is not the 404 carrying that
    error's message: it has status 200 and no body. *)
Lemma failure_boundary_counterexample :
  connectStreamToHub (Demo.actions Demo.no_upload)
    "https://hub.example/callback" (Some "BBBBBBBBBB")
    = Returned (Throw Demo.UnknownStream) /\
  ~ (selectMethod (Demo.actions Demo.no_upload) Demo.data Demo.uuid Demo.new_URL
       put_unknown
     = {| body := Some (encodeText (Demo.actions Demo.no_upload)
                          (message Demo.UnknownStream));
          status := 404;
          headers := None |}) /\
  selectMethod (Demo.actions Demo.no_upload) Demo.data Demo.uuid Demo.new_URL
    put_unknown
  = {| body := None; status := 200; headers := None |}.
Proof.
  split; [reflexivity|]. split; [|reflexivity].
  intros H. discriminate H.
Qed.

(** ** The stream record *)

Lemma string_app_assoc (a b c : string) :
  ((a ++ b) ++ c)%string = (a ++ (b ++ c))%string.
Proof. induction a as [|x a IH]; simpl; [reflexivity | now rewrite IH]. Qed.

Lemma prefix_app (needle rest : string) :
  String.prefix needle (needle ++ rest) = true.
Proof.
  induction needle as [|c needle IH]; simpl.
  - destruct rest; reflexivity.
  - destruct (ascii_dec c c) as [_ | N]; [exact IH | now elim N].
Qed.

Lemma occurs_here (needle s : string) :
  String.prefix needle s = true -> occurs needle s = true.
Proof. destruct s; simpl; intros ->; reflexivity. Qed.

Lemma occurs_app (before needle rest : string) :
  occurs needle (before ++ needle ++ rest) = true.
Proof.
  induction before as [|c before IH].
  - exact (occurs_here _ _ (prefix_app needle rest)).
  - simpl. rewrite IH. apply orb_true_r.
Qed.

(** The serialisation of an object whose members are named [admin],
    [public] and [hub] contains the quoted name [public]. *)
Lemma public_occurs (a p h : json) :
  occurs (quote "public")
    (JSON_stringify (JObject [("admin", a); ("public", p); ("hub", h)])) = true.
Proof.
  set (needle := quote "public").
  replace (JSON_stringify (JObject [("admin", a); ("public", p); ("hub", h)]))
    with (("{" ++ quote "admin" ++ ":" ++ JSON_stringify a ++ ",")
          ++ needle
          ++ (":" ++ JSON_stringify p ++ "," ++ quote "hub" ++ ":"
              ++ JSON_stringify h ++ "}"))%string.
  - apply occurs_app.
  - subst needle. unfold quote, member. simpl.
    repeat (rewrite string_app_assoc; simpl). reflexivity.
Qed.

Lemma encoded_eq (s t : string) :
  Some (list_byte_of_string s) = Some (list_byte_of_string t) -> s = t.
Proof.
  intros H.
  assert (G : list_byte_of_string s = list_byte_of_string t) by congruence.
  apply (f_equal string_of_list_byte) in G.
  now rewrite !string_of_list_byte_of_string in G.
Qed.

(** C1 as stated fails: the body answering POST /stream on the
    demonstration deployment is not the serialisation of any object whose
    keys are [admin], [public] and [hub]. *)
Lemma stream_record_keys_counterexample :
  ~ exists j,
      keys j = ["admin"; "public"; "hub"] /\
      body (handle (Demo.actions Demo.no_upload) Demo.data Demo.uuid Demo.new_URL
              post_stream)
      = Some (encodeText (Demo.actions Demo.no_upload) (JSON_stringify j)).
Proof.
  intros [j [Hk Hb]].
  destruct j as [s | items | fields]; simpl in Hk; try discriminate Hk.
  destruct fields as [|[k1 a] [|[k2 p] [|[k3 h] [|f fields]]]];
    simpl in Hk; try discriminate Hk.
  injection Hk as -> -> ->.
  pose proof (public_occurs a p h) as Ho.
  change (body (handle (Demo.actions Demo.no_upload) Demo.data Demo.uuid
                  Demo.new_URL post_stream))
    with (Some (list_byte_of_string
                  (JSON_stringify (json_of_stream Demo.streamA)))) in Hb.
  change (encodeText (Demo.actions Demo.no_upload)) with list_byte_of_string in Hb.
  apply encoded_eq in Hb.
  rewrite <- Hb in Ho. vm_compute in Ho. discriminate Ho.
Qed.

(** C1, as amended. A POST /stream whose stream creation succeeds, and a
    GET /{adminID}/admin whose stream lookup succeeds, are answered with
    status 200, the JSON content type, and as body the serialisation of an
    object with exactly the keys [admin], [download] and [hub], holding the
    three identifiers of the stream record. *)
Theorem stream_record_shape
    (action : RequestsActionsProvider) (data : RequestsDataProvider)
    (uuid : RequestsUUIDProvider) (new_URL : string -> result URL)
    (req : ServerRequest) (d : UserStreamData) :
  (method req = "POST" /\
   at_ (path_of req) 1 = Some "stream" /\
   createStream action = Ok d)
  \/
  (method req = "GET" /\
   validateUUID uuid (at_ (path_of req) 1) = true /\
   at_ (path_of req) 2 = Some "admin" /\
   fetchStream action (at_ (path_of req) 1) = Ok d) ->
  let record :=
    JObject [("admin", JString (admin d));
             ("download", JString (download d));
             ("hub", JString (hub d))] in
  keys record = ["admin"; "download"; "hub"] /\
  status (handle action data uuid new_URL req) = 200%Z /\
  body (handle action data uuid new_URL req)
    = Some (encodeText action (JSON_stringify record)) /\
  exists hs,
    headers (handle action data uuid new_URL req) = Some hs /\
    Js.get "content-type" hs = Some "application/json".
Proof.
  intros H record. split; [reflexivity|].
  assert (E : selectMethod action data uuid new_URL req
              = {| body := Some (encodeText action (JSON_stringify record));
                   status := 200;
                   headers := Some json_headers |}).
  { destruct H as [(Hm & Hp & Hc) | (Hm & Hv & Hp & Hf)];
      unfold selectMethod; rewrite Hm; simpl String.eqb; cbv iota.
    - unfold post, post_try. rewrite Hp. simpl is_lit. cbv iota.
      unfold await. rewrite Hc. reflexivity.
    - unfold get, get_try. rewrite Hv, Hp. simpl negb. simpl is_lit. cbv iota.
      unfold await. rewrite Hf. reflexivity. }
  unfold handle. rewrite setCORS_status, setCORS_body, setCORS_headers, E.
  simpl. repeat split. eexists. split; reflexivity.
Qed.

(** POST /stream on the demonstration deployment. *)
Lemma stream_record_shape_witness :
  status (handle (Demo.actions Demo.no_upload) Demo.data Demo.uuid Demo.new_URL
            post_stream) = 200%Z /\
  body (handle (Demo.actions Demo.no_upload) Demo.data Demo.uuid Demo.new_URL
          post_stream)
  = Some (list_byte_of_string
            (JSON_stringify
               (JObject [("admin", JString Demo.adminA);
                         ("download", JString Demo.publicP);
                         ("hub", JString Demo.hubH)]))).
Proof.
  pose proof (stream_record_shape
                (Demo.actions Demo.no_upload) Demo.data Demo.uuid Demo.new_URL
                post_stream Demo.streamA
                (or_introl (conj eq_refl (conj eq_refl eq_refl)))) as H.
  exact (conj (proj1 (proj2 H)) (proj1 (proj2 (proj2 H)))).
Defined.

(** ** Hub requests for an unknown stream *)

Section UnknownStream.

Import HubManager.

Variable UnknownStream : JsError.
Variable handle_of : URL -> string.
Variable st : Store.
Variable base : RequestsActionsProvider.
Variable data : RequestsDataProvider.
Variable uuid : RequestsUUIDProvider.
Variable new_URL : string -> result URL.

Let action : RequestsActionsProvider := serve UnknownStream handle_of st base.

Lemma delete_unknown req a :
  at_ (path_of req) 1 = Some a ->
  resolves st a = false ->
  exists e,
    delete action uuid req = not_found base e /\
    (validateUUID uuid (Some a) = true ->
     at_ (path_of req) 2 = Some "admin" ->
     truthy_number (contentLength req) = true ->
     (exists bytes, req_body req = Ok bytes) ->
     e = UnknownStream).
Proof.
  intros Hp Hr. unfold delete, delete_try, try_catch, bind, await. rewrite Hp.
  simpl disconnectStreamFromHub. unfold disconnect. rewrite Hr. simpl bind.
  destruct (validateUUID uuid (Some a)); simpl negb; simpl orb; cbv iota.
  2: { eexists; split; [reflexivity | discriminate]. }
  destruct (is_lit (at_ (path_of req) 2) "admin") eqn:Ha; simpl negb; cbv iota.
  2: { eexists; split; [reflexivity|]. intros _ H2. rewrite H2 in Ha.
       discriminate Ha. }
  destruct (truthy_number (contentLength req)); simpl negb; cbv iota.
  2: { eexists; split; [reflexivity | discriminate]. }
  destruct (req_body req) as [bytes | e].
  - exists UnknownStream. split; reflexivity.
  - exists e. split; [reflexivity|]. intros _ _ _ [bytes Hb]. discriminate Hb.
Qed.

Lemma hubs_unknown req a :
  at_ (path_of req) 1 = Some a ->
  resolves st a = false ->
  at_ (path_of req) 2 = Some "hubs" ->
  exists e,
    get action data uuid req = not_found base e /\
    (validateUUID uuid (Some a) = true -> e = UnknownStream).
Proof.
  intros Hp Hr Hh. unfold get, get_try, try_catch, bind, await. rewrite Hp, Hh.
  simpl connectedHubs. unfold list_. rewrite Hr. simpl is_lit. cbv iota.
  destruct (validateUUID uuid (Some a)); simpl negb; cbv iota.
  - exists UnknownStream. split; reflexivity.
  - eexists; split; [reflexivity | discriminate].
Qed.

Lemma put_unknown_answer req a bytes target :
  at_ (path_of req) 1 = Some a ->
  validateUUID uuid (Some a) = true ->
  at_ (path_of req) 2 = Some "admin" ->
  truthy_number (contentLength req) = true ->
  req_body req = Ok bytes ->
  new_URL (decodeText base bytes) = Ok target ->
  put action uuid new_URL req = {| body := None; status := 200; headers := None |}.
Proof.
  intros Hp Hv Ha Hl Hb Hu.
  unfold put, put_try, try_catch, bind. rewrite Hp, Hv, Ha, Hl, Hb.
  simpl. rewrite Hu. reflexivity.
Qed.

End UnknownStream.

(** C2, as amended. For an admin token that resolves to no stream, the
    manager's connect, disconnect and list fail with [UnknownStream]; a
    DELETE /{adminID}/admin and a GET /{adminID}/hubs for that token are
    answered with 404 and an error's message as body, which is the message
    of [UnknownStream] once the path and body checks have passed; a PUT
    /{adminID}/admin whose checks have passed is answered 200 with no body,
    as the handler does not wait for the outcome of the connection. *)
Theorem unknown_stream_hub_requests
    (UnknownStream : JsError) (handle_of : URL -> string)
    (st : HubManager.Store) (base : RequestsActionsProvider)
    (data : RequestsDataProvider) (uuid : RequestsUUIDProvider)
    (new_URL : string -> result URL) (req : ServerRequest) (a : string) :
  at_ (path_of req) 1 = Some a ->
  HubManager.resolves st a = false ->
  let action := HubManager.serve UnknownStream handle_of st base in
  (forall target,
     HubManager.connect UnknownStream handle_of st a target = Throw UnknownStream) /\
  (forall handle,
     HubManager.disconnect UnknownStream st a handle = Throw UnknownStream) /\
  HubManager.list_ UnknownStream st a = Throw UnknownStream /\
  (method req = "DELETE" ->
   exists e,
     selectMethod action data uuid new_URL req = not_found base e /\
     (validateUUID uuid (Some a) = true ->
      at_ (path_of req) 2 = Some "admin" ->
      truthy_number (contentLength req) = true ->
      (exists bytes, req_body req = Ok bytes) ->
      e = UnknownStream)) /\
  (method req = "GET" ->
   at_ (path_of req) 2 = Some "hubs" ->
   exists e,
     selectMethod action data uuid new_URL req = not_found base e /\
     (validateUUID uuid (Some a) = true -> e = UnknownStream)) /\
  (method req = "PUT" ->
   forall bytes target,
     validateUUID uuid (Some a) = true ->
     at_ (path_of req) 2 = Some "admin" ->
     truthy_number (contentLength req) = true ->
     req_body req = Ok bytes ->
     new_URL (decodeText base bytes) = Ok target ->
     selectMethod action data uuid new_URL req
     = {| body := None; status := 200; headers := None |}).
Proof.
  intros Hp Hr action.
  split; [intros target; unfold HubManager.connect; now rewrite Hr|].
  split; [intros handle; unfold HubManager.disconnect; now rewrite Hr|].
  split; [unfold HubManager.list_; now rewrite Hr|].
  split; [|split].
  - intros Hm. unfold selectMethod. rewrite Hm. simpl String.eqb. cbv iota.
    exact (delete_unknown UnknownStream handle_of st base uuid req a Hp Hr).
  - intros Hm Hh. unfold selectMethod. rewrite Hm. simpl String.eqb. cbv iota.
    exact (hubs_unknown UnknownStream handle_of st base data uuid req a Hp Hr Hh).
  - intros Hm bytes target Hv Ha Hl Hb Hu.
    unfold selectMethod. rewrite Hm. simpl String.eqb. cbv iota.
    exact (put_unknown_answer UnknownStream handle_of st base uuid new_URL req a
             bytes target Hp Hv Ha Hl Hb Hu).
Qed.

(** DELETE for a token unknown to the demonstration store: 404 with the
    message of [UnknownStream]. *)
Lemma unknown_stream_hub_requests_witness :
  exists e,
    selectMethod (Demo.actions Demo.no_upload) Demo.data Demo.uuid Demo.new_URL
      delete_unknown_request
    = not_found (Demo.base Demo.no_upload) e /\
    e = Demo.UnknownStream.
Proof.
  destruct (proj1 (proj2 (proj2 (proj2
              (unknown_stream_hub_requests
                 Demo.UnknownStream (fun target => target) Demo.store
                 (Demo.base Demo.no_upload) Demo.data Demo.uuid Demo.new_URL
                 delete_unknown_request "BBBBBBBBBB" eq_refl eq_refl))))
              eq_refl) as [e [H G]].
  exists e. split; [exact H|].
  apply G; [reflexivity | reflexivity | reflexivity|].
  eexists. reflexivity.
Defined.

(** C2 as stated fails on PUT: the admin token of [put_unknown] resolves to
    no stream and connect fails with [UnknownStream], yet the response is
    not a 404: it has status 200 and no error message. *)
Lemma unknown_stream_put_counterexample :
  HubManager.resolves Demo.store "BBBBBBBBBB" = false /\
  HubManager.connect Demo.UnknownStream (fun target => target) Demo.store
    "BBBBBBBBBB" "https://hub.example/callback" = Throw Demo.UnknownStream /\
  status (handle (Demo.actions Demo.no_upload) Demo.data Demo.uuid Demo.new_URL
            put_unknown) <> 404%Z /\
  body (handle (Demo.actions Demo.no_upload) Demo.data Demo.uuid Demo.new_URL
          put_unknown) = None.
Proof.
  repeat split. intros H. discriminate H.
Qed.

(** ** Segment ingestion *)

Section Ingestion.

Variable core : UploadCoreProvider.
Variable data : UploadDataProvider.
Variable random : UploadRandomProvider.
Variable platform : Platform.

Lemma mbind_ok {A B : Type} (ev : event) (a : A) (k : A -> M B) :
  mbind (perform ev (Ok a)) k = (ev :: trace (k a), outcome (k a)).
Proof. unfold mbind, perform, trace, outcome. destruct (k a); reflexivity. Qed.

(** Without a (non-empty) content-type header nothing is called. *)
Lemma process_no_header req id :
  truthy_string (Js.get "content-type" (req_headers req)) = false ->
  process core data random platform req id = ([], Throw missing_header).
Proof.
  unfold process. destruct (Js.get "content-type" (req_headers req)) as [[|c s]|];
    simpl; intros H; [reflexivity | discriminate H | reflexivity].
Qed.

(** With a header, the admin token is resolved first; a failure ends the
    run there. *)
Lemma process_unresolved req id ct e :
  Js.get "content-type" (req_headers req) = Some ct ->
  truthy_string (Some ct) = true ->
  getStreamPublicIDFromStreamAdminID data id = Throw e ->
  process core data random platform req id = ([GetStreamPublicID id], Throw e).
Proof.
  intros Hc Ht Hr. unfold process. rewrite Hc.
  destruct ct as [|c s]; [discriminate Ht|].
  unfold await. rewrite Hr. reflexivity.
Qed.

Lemma process_resolved req id ct pub :
  Js.get "content-type" (req_headers req) = Some ct ->
  truthy_string (Some ct) = true ->
  getStreamPublicIDFromStreamAdminID data id = Ok pub ->
  process core data random platform req id
  = match readForm platform (r req) (boundary_of ct) with
    | Ok form =>
        (GetStreamPublicID id :: ReadForm (boundary_of ct)
           :: trace (after_form core data random platform pub form),
         outcome (after_form core data random platform pub form))
    | Throw e => ([GetStreamPublicID id; ReadForm (boundary_of ct)], Throw e)
    end.
Proof.
  intros Hc Ht Hr. unfold process. rewrite Hc.
  destruct ct as [|c s]; [discriminate Ht|].
  unfold await. rewrite Hr, mbind_ok.
  destruct (readForm platform (r req) (boundary_of (String c s))) as [form | e].
  - rewrite mbind_ok. reflexivity.
  - reflexivity.
Qed.

(** Storing a segment when every step up to the registration succeeds. *)
Lemma store_segment_written pub bytes sid rid n :
  uuid random = Ok sid ->
  open platform
    (join platform
       [rootDir core; "audio"; join platform [pub; String.append sid ".opus"]])
    = Ok rid ->
  write platform rid bytes = Ok n ->
  store_segment core data random platform pub bytes
  = let fileLocation := join platform [pub; String.append sid ".opus"] in
    let stored :=
      [Uuid;
       Open (join platform [rootDir core; "audio"; fileLocation]);
       Write rid bytes;
       Close rid] in
    match new_URL platform fileLocation (fileURL core) with
    | Ok segmentURL =>
        match addSegmentURL data sid pub segmentURL with
        | Ok _ => (stored ++ [AddSegmentURL sid pub segmentURL], Ok tt)
        | Throw _ =>
            (stored ++
               [AddSegmentURL sid pub segmentURL;
                ConsoleError
                  (String.append "Failed to create segment entry "
                     (String.append sid (String.append " for " pub)))],
             Ok tt)
        end
    | Throw _ =>
        (stored ++
           [ConsoleError
              (String.append "Failed to create segment entry "
                 (String.append sid (String.append " for " pub)))],
         Ok tt)
    end.
Proof.
  intros Hu Ho Hw. unfold store_segment, await.
  rewrite Hu, mbind_ok, Ho, mbind_ok, Hw, mbind_ok, mbind_ok.
  unfold catch, lift, mbind, perform, trace, outcome.
  destruct (new_URL platform _ (fileURL core)) as [u | e]; simpl.
  - destruct (addSegmentURL data sid pub u) as [[] | e]; reflexivity.
  - reflexivity.
Qed.

Lemma store_segment_no_identifier pub bytes e :
  uuid random = Throw e ->
  store_segment core data random platform pub bytes = ([Uuid], Throw e).
Proof. intros H. unfold store_segment, await. rewrite H. reflexivity. Qed.

Lemma store_segment_not_opened pub bytes sid e :
  uuid random = Ok sid ->
  open platform
    (join platform
       [rootDir core; "audio"; join platform [pub; String.append sid ".opus"]])
    = Throw e ->
  store_segment core data random platform pub bytes
  = ([Uuid;
      Open (join platform
              [rootDir core; "audio";
               join platform [pub; String.append sid ".opus"]])],
     Throw e).
Proof.
  intros Hu Ho. unfold store_segment, await. rewrite Hu, mbind_ok, Ho.
  reflexivity.
Qed.

Lemma store_segment_not_written pub bytes sid rid e :
  uuid random = Ok sid ->
  open platform
    (join platform
       [rootDir core; "audio"; join platform [pub; String.append sid ".opus"]])
    = Ok rid ->
  write platform rid bytes = Throw e ->
  store_segment core data random platform pub bytes
  = ([Uuid;
      Open (join platform
              [rootDir core; "audio";
               join platform [pub; String.append sid ".opus"]]);
      Write rid bytes],
     Throw e).
Proof.
  intros Hu Ho Hw. unfold store_segment, await.
  rewrite Hu, mbind_ok, Ho, mbind_ok, Hw. reflexivity.
Qed.

End Ingestion.

(** C4. In segment ingestion the admin token is resolved, and can fail,
    strictly before the multipart body is read: when the token does not
    resolve, [process] fails having called at most the resolution (never
    the form reader); and in any run that does read the form, the first
    call made is the resolution, it succeeded, and the read comes next. *)
Theorem resolution_precedes_form
    (core : UploadCoreProvider) (data : UploadDataProvider)
    (random : UploadRandomProvider) (platform : Platform)
    (req : ServerRequest) (id : option string) :
  (forall e,
     getStreamPublicIDFromStreamAdminID data id = Throw e ->
     (process core data random platform req id = ([], Throw missing_header) \/
      process core data random platform req id = ([GetStreamPublicID id], Throw e)) /\
     (exists e', outcome (process core data random platform req id) = Throw e') /\
     (forall boundary,
        ~ In (ReadForm boundary) (trace (process core data random platform req id)))) /\
  (forall boundary,
     In (ReadForm boundary) (trace (process core data random platform req id)) ->
     exists pub boundary' rest,
       getStreamPublicIDFromStreamAdminID data id = Ok pub /\
       trace (process core data random platform req id)
       = GetStreamPublicID id :: ReadForm boundary' :: rest).
Proof.
  destruct (truthy_string (Js.get "content-type" (req_headers req))) eqn:Ht.
  - destruct (Js.get "content-type" (req_headers req)) as [ct|] eqn:Hc;
      [|discriminate Ht].
    split.
    + intros e He.
      rewrite (process_unresolved core data random platform req id ct e Hc Ht He).
      split; [now right|]. split; [now exists e|].
      intros boundary [H | []]. discriminate H.
    + intros boundary.
      destruct (getStreamPublicIDFromStreamAdminID data id) as [pub | e] eqn:He.
      * rewrite (process_resolved core data random platform req id ct pub Hc Ht He).
        destruct (readForm platform (r req) (boundary_of ct)); intros _;
          do 3 eexists; (split; [reflexivity|]); reflexivity.
      * rewrite (process_unresolved core data random platform req id ct e Hc Ht He).
        intros [H | []]. discriminate H.
  - rewrite (process_no_header core data random platform req id Ht).
    split.
    + intros e _. split; [now left|]. split; [now exists missing_header|].
      intros boundary [].
    + intros boundary [].
Qed.

(** An upload for a token the demonstration store does not know. *)
Lemma resolution_precedes_form_witness :
  outcome (process UploadDemo.core (UploadDemo.data (Ok tt)) UploadDemo.random
             (UploadDemo.platform (UploadDemo.form_with NoFile))
             (UploadDemo.upload UploadDemo.multipart "XYZ") (Some "BBBBBBBBBB"))
    = Throw Demo.UnknownStream /\
  forall boundary,
    ~ In (ReadForm boundary)
         (trace (process UploadDemo.core (UploadDemo.data (Ok tt)) UploadDemo.random
                   (UploadDemo.platform (UploadDemo.form_with NoFile))
                   (UploadDemo.upload UploadDemo.multipart "XYZ")
                   (Some "BBBBBBBBBB"))).
Proof.
  split; [reflexivity|].
  exact (proj2 (proj2
           (proj1 (resolution_precedes_form
                     UploadDemo.core (UploadDemo.data (Ok tt)) UploadDemo.random
                     (UploadDemo.platform (UploadDemo.form_with NoFile))
                     (UploadDemo.upload UploadDemo.multipart "XYZ")
                     (Some "BBBBBBBBBB"))
                  Demo.UnknownStream eq_refl))).
Defined.

(** C3. When the registration of the segment's metadata fails after the
    audio payload has been written, the error does not leave [process]:
    the run ends without error, having written the file and logged the
    failure on the console; a POST upload served by this [process] is
    answered with the 200 success response. *)
Theorem registration_failure_swallowed
    (core : UploadCoreProvider) (data : UploadDataProvider)
    (random : UploadRandomProvider) (platform : Platform)
    (action : RequestsActionsProvider) (validator : RequestsUUIDProvider)
    (req : ServerRequest) (id : option string)
    (ct pub sid : string) (form : MultipartFormData) (f : FormFile)
    (bytes : Uint8Array) (rid n : Z) (segmentURL : URL) (e : JsError) :
  Js.get "content-type" (req_headers req) = Some ct ->
  truthy_string (Some ct) = true ->
  getStreamPublicIDFromStreamAdminID data id = Ok pub ->
  readForm platform (r req) (boundary_of ct) = Ok form ->
  file form "audio" = OneFile f ->
  content f = Some bytes ->
  uuid random = Ok sid ->
  open platform
    (join platform
       [rootDir core; "audio"; join platform [pub; String.append sid ".opus"]])
    = Ok rid ->
  write platform rid bytes = Ok n ->
  new_URL platform (join platform [pub; String.append sid ".opus"]) (fileURL core)
    = Ok segmentURL ->
  addSegmentURL data sid pub segmentURL = Throw e ->
  outcome (process core data random platform req id) = Ok tt /\
  trace (process core data random platform req id)
  = [GetStreamPublicID id;
     ReadForm (boundary_of ct);
     Uuid;
     Open (join platform
             [rootDir core; "audio"; join platform [pub; String.append sid ".opus"]]);
     Write rid bytes;
     Close rid;
     AddSegmentURL sid pub segmentURL;
     ConsoleError
       (String.append "Failed to create segment entry "
          (String.append sid (String.append " for " pub)))] /\
  (at_ (path_of req) 1 = id ->
   is_lit id "stream" = false ->
   validateUUID validator id = true ->
   processUploadFormData action req id
     = outcome (process core data random platform req id) ->
   post action validator req
   = {| body := Some (encodeText action (String.append "Success" newline));
        status := 200;
        headers := None |}).
Proof.
  intros Hc Ht Hr Hf Ha Hb Hu Ho Hw Hn Hs.
  assert (E : process core data random platform req id
              = ([GetStreamPublicID id;
                  ReadForm (boundary_of ct);
                  Uuid;
                  Open (join platform
                          [rootDir core; "audio";
                           join platform [pub; String.append sid ".opus"]]);
                  Write rid bytes;
                  Close rid;
                  AddSegmentURL sid pub segmentURL;
                  ConsoleError
                    (String.append "Failed to create segment entry "
                       (String.append sid (String.append " for " pub)))],
                 Ok tt)).
  { rewrite (process_resolved core data random platform req id ct pub Hc Ht Hr).
    rewrite Hf. unfold after_form. rewrite Ha, Hb.
    rewrite (store_segment_written core data random platform pub bytes sid rid n
               Hu Ho Hw).
    cbv zeta. rewrite Hn, Hs. reflexivity. }
  rewrite E. split; [reflexivity|]. split; [reflexivity|].
  intros Hp Hl Hv Hw'. unfold post, post_try. rewrite Hp, Hl, Hv. simpl negb.
  cbv iota. unfold await. rewrite Hw'. reflexivity.
Qed.

(** An upload of two bytes while the metadata store is unavailable. *)
Lemma registration_failure_swallowed_witness :
  outcome (process UploadDemo.core failing_store UploadDemo.random
             (UploadDemo.platform two_bytes)
             (UploadDemo.upload UploadDemo.multipart "XYZ") (Some Demo.adminA))
    = Ok tt /\
  post (Demo.actions (served failing_store two_bytes)) Demo.uuid
       (UploadDemo.upload UploadDemo.multipart "XYZ")
  = {| body := Some (list_byte_of_string (String.append "Success" newline));
       status := 200;
       headers := None |}.
Proof.
  pose proof (registration_failure_swallowed
                UploadDemo.core failing_store UploadDemo.random
                (UploadDemo.platform two_bytes)
                (Demo.actions (served failing_store two_bytes)) Demo.uuid
                (UploadDemo.upload UploadDemo.multipart "XYZ") (Some Demo.adminA)
                "multipart/form-data; boundary=XYZ" Demo.publicP Demo.segmentS
                two_bytes (UploadDemo.opus [x01; x02]) [x01; x02] 3%Z 2%Z
                "https://files.example/PPPPPPPPPP/SSSSSSSSSS.opus"
                (mkError "store unavailable")
                eq_refl eq_refl eq_refl eq_refl eq_refl eq_refl eq_refl eq_refl
                eq_refl eq_refl eq_refl) as H.
  split; [exact (proj1 H)|].
  exact (proj2 (proj2 H) eq_refl eq_refl eq_refl eq_refl).
Defined.

(** C5, as amended. For an upload with a content-type header, a known
    admin token and a readable form: when the form has exactly one file
    named [audio] carrying its content (of any length, zero included) and
    the identifier, the file and the registration steps succeed, exactly
    one file is written and one segment registered, both at the location
    joined from the stream's public identifier and the fresh segment
    identifier followed by [.opus]; when the [audio] file is absent,
    multiple, or has no content member, nothing is written or registered
    and the run still succeeds. *)
Theorem ingest_one_segment
    (core : UploadCoreProvider) (data : UploadDataProvider)
    (random : UploadRandomProvider) (platform : Platform)
    (req : ServerRequest) (id : option string)
    (ct pub : string) (form : MultipartFormData) :
  Js.get "content-type" (req_headers req) = Some ct ->
  truthy_string (Some ct) = true ->
  getStreamPublicIDFromStreamAdminID data id = Ok pub ->
  readForm platform (r req) (boundary_of ct) = Ok form ->
  (forall f bytes sid rid n segmentURL,
     file form "audio" = OneFile f ->
     content f = Some bytes ->
     uuid random = Ok sid ->
     open platform
       (join platform
          [rootDir core; "audio"; join platform [pub; String.append sid ".opus"]])
       = Ok rid ->
     write platform rid bytes = Ok n ->
     new_URL platform (join platform [pub; String.append sid ".opus"])
       (fileURL core) = Ok segmentURL ->
     addSegmentURL data sid pub segmentURL = Ok tt ->
     process core data random platform req id
     = ([GetStreamPublicID id;
         ReadForm (boundary_of ct);
         Uuid;
         Open (join platform
                 [rootDir core; "audio";
                  join platform [pub; String.append sid ".opus"]]);
         Write rid bytes;
         Close rid;
         AddSegmentURL sid pub segmentURL],
        Ok tt) /\
     files_written (trace (process core data random platform req id)) = 1 /\
     segments_registered (trace (process core data random platform req id)) = 1) /\
  (file form "audio" = NoFile \/
   (exists fs, file form "audio" = ManyFiles fs) \/
   (exists f, file form "audio" = OneFile f /\ content f = None) ->
   process core data random platform req id
   = ([GetStreamPublicID id; ReadForm (boundary_of ct)], Ok tt) /\
   files_written (trace (process core data random platform req id)) = 0 /\
   segments_registered (trace (process core data random platform req id)) = 0).
Proof.
  intros Hc Ht Hr Hf.
  rewrite (process_resolved core data random platform req id ct pub Hc Ht Hr), Hf.
  unfold after_form. split.
  - intros f bytes sid rid n segmentURL Ha Hb Hu Ho Hw Hn Hs.
    rewrite Ha, Hb.
    rewrite (store_segment_written core data random platform pub bytes sid rid n
               Hu Ho Hw).
    cbv zeta. rewrite Hn, Hs. repeat split.
  - intros [Ha | [[fs Ha] | [f [Ha Hb]]]]; rewrite Ha; [| | rewrite Hb];
      repeat split.
Qed.

(** An upload of two bytes on the demonstration deployment. *)
Lemma ingest_one_segment_witness :
  process UploadDemo.core (UploadDemo.data (Ok tt)) UploadDemo.random
    (UploadDemo.platform two_bytes)
    (UploadDemo.upload UploadDemo.multipart "XYZ") (Some Demo.adminA)
  = ([GetStreamPublicID (Some Demo.adminA);
      ReadForm "XYZ";
      Uuid;
      Open "/srv/sludge/audio/PPPPPPPPPP/SSSSSSSSSS.opus";
      Write 3 [x01; x02];
      Close 3;
      AddSegmentURL Demo.segmentS Demo.publicP
        "https://files.example/PPPPPPPPPP/SSSSSSSSSS.opus"],
     Ok tt).
Proof.
  exact (proj1 (proj1 (ingest_one_segment
                  UploadDemo.core (UploadDemo.data (Ok tt)) UploadDemo.random
                  (UploadDemo.platform two_bytes)
                  (UploadDemo.upload UploadDemo.multipart "XYZ")
                  (Some Demo.adminA)
                  "multipart/form-data; boundary=XYZ" Demo.publicP two_bytes
                  eq_refl eq_refl eq_refl eq_refl)
                (UploadDemo.opus [x01; x02]) [x01; x02] Demo.segmentS 3%Z 2%Z
                "https://files.example/PPPPPPPPPP/SSSSSSSSSS.opus"
                eq_refl eq_refl eq_refl eq_refl eq_refl eq_refl eq_refl)).
Defined.

(** C5 as stated fails for an empty file: its content is a byte array of
    length zero, present all the same, and the upload writes a file and
    registers a segment instead of doing neither. *)
Lemma empty_audio_counterexample :
  content (UploadDemo.opus []) = Some [] /\
  ~ (files_written
       (trace (process UploadDemo.core (UploadDemo.data (Ok tt)) UploadDemo.random
                 (UploadDemo.platform zero_bytes)
                 (UploadDemo.upload UploadDemo.multipart "XYZ")
                 (Some Demo.adminA))) = 0 /\
     segments_registered
       (trace (process UploadDemo.core (UploadDemo.data (Ok tt)) UploadDemo.random
                 (UploadDemo.platform zero_bytes)
                 (UploadDemo.upload UploadDemo.multipart "XYZ")
                 (Some Demo.adminA))) = 0) /\
  In (Write 3 [])
     (trace (process UploadDemo.core (UploadDemo.data (Ok tt)) UploadDemo.random
               (UploadDemo.platform zero_bytes)
               (UploadDemo.upload UploadDemo.multipart "XYZ")
               (Some Demo.adminA))) /\
  In (AddSegmentURL Demo.segmentS Demo.publicP
        "https://files.example/PPPPPPPPPP/SSSSSSSSSS.opus")
     (trace (process UploadDemo.core (UploadDemo.data (Ok tt)) UploadDemo.random
               (UploadDemo.platform zero_bytes)
               (UploadDemo.upload UploadDemo.multipart "XYZ")
               (Some Demo.adminA))).
Proof.
  split; [reflexivity|]. split; [|split].
  - intros [H _]. vm_compute in H. discriminate H.
  - vm_compute. tauto.
  - vm_compute. tauto.
Qed.

(** ** The content-type header *)

(** C6, as amended. Segment ingestion fails with the missing-header error,
    before any other step, whenever the content-type header is absent or
    empty. A header that is present is not checked for its shape: what
    follows its first [=] (the whole header when it has none) is handed to
    the multipart reader as the boundary, and the run depends on the header
    through that boundary alone. With a present header an error thrown by
    ingestion is never about the header: it is the error of one of the
    steps (the resolution of the token, the reader, the generation of the
    identifier, the opening or the writing of the file); in particular the
    run succeeds when the token resolves and the reader accepts the body
    with that boundary and finds no [audio] file. *)
Theorem content_type_check
    (core : UploadCoreProvider) (data : UploadDataProvider)
    (random : UploadRandomProvider) (platform : Platform)
    (req : ServerRequest) (id : option string) :
  (truthy_string (Js.get "content-type" (req_headers req)) = false ->
   process core data random platform req id
   = ([], Throw (mkError (String.append "Missing content type header" newline)))) /\
  (forall ct pub form,
     Js.get "content-type" (req_headers req) = Some ct ->
     truthy_string (Some ct) = true ->
     getStreamPublicIDFromStreamAdminID data id = Ok pub ->
     readForm platform (r req) (boundary_of ct) = Ok form ->
     file form "audio" = NoFile ->
     process core data random platform req id
     = ([GetStreamPublicID id; ReadForm (boundary_of ct)], Ok tt)) /\
  (forall ct, indexOf "=" ct = (-1)%Z -> boundary_of ct = ct) /\
  (forall ct e,
     Js.get "content-type" (req_headers req) = Some ct ->
     truthy_string (Some ct) = true ->
     outcome (process core data random platform req id) = Throw e ->
     getStreamPublicIDFromStreamAdminID data id = Throw e \/
     readForm platform (r req) (boundary_of ct) = Throw e \/
     uuid random = Throw e \/
     (exists path, open platform path = Throw e) \/
     (exists rid bytes, write platform rid bytes = Throw e)) /\
  (forall ct pub,
     Js.get "content-type" (req_headers req) = Some ct ->
     truthy_string (Some ct) = true ->
     getStreamPublicIDFromStreamAdminID data id = Ok pub ->
     exists rest,
       trace (process core data random platform req id)
       = GetStreamPublicID id :: ReadForm (boundary_of ct) :: rest) /\
  (forall req' ct ct',
     Js.get "content-type" (req_headers req) = Some ct ->
     truthy_string (Some ct) = true ->
     Js.get "content-type" (req_headers req') = Some ct' ->
     truthy_string (Some ct') = true ->
     boundary_of ct' = boundary_of ct ->
     r req' = r req ->
     process core data random platform req' id
     = process core data random platform req id).
Proof.
  split; [apply process_no_header|]. split; [|split; [|split; [|split]]].
  - intros ct pub form Hc Ht Hr Hf Ha.
    rewrite (process_resolved core data random platform req id ct pub Hc Ht Hr), Hf.
    unfold after_form. rewrite Ha. reflexivity.
  - intros ct H. unfold boundary_of. rewrite H. reflexivity.
  - intros ct e Hc Ht.
    destruct (getStreamPublicIDFromStreamAdminID data id) as [pub | e0] eqn:Hr.
    2: { rewrite (process_unresolved core data random platform req id ct e0
                    Hc Ht Hr).
         intros H. injection H as <-. left. reflexivity. }
    rewrite (process_resolved core data random platform req id ct pub Hc Ht Hr).
    destruct (readForm platform (r req) (boundary_of ct)) as [form | e0].
    2: { intros H. injection H as <-. right. left. reflexivity. }
    unfold after_form, outcome. simpl snd.
    destruct (file form "audio") as [| f | fs]; try (intros H; discriminate H).
    destruct (content f) as [bytes|]; [|intros H; discriminate H].
    destruct (uuid random) as [sid | e0] eqn:Hu.
    2: { rewrite (store_segment_no_identifier core data random platform pub
                    bytes e0 Hu).
         intros H. injection H as <-. right. right. left. reflexivity. }
    destruct (open platform
                (join platform
                   [rootDir core; "audio";
                    join platform [pub; String.append sid ".opus"]]))
      as [rid | e0] eqn:Ho.
    2: { rewrite (store_segment_not_opened core data random platform pub bytes
                    sid e0 Hu Ho).
         intros H. injection H as <-. right. right. right. left.
         eexists. exact Ho. }
    destruct (write platform rid bytes) as [n | e0] eqn:Hw.
    2: { rewrite (store_segment_not_written core data random platform pub bytes
                    sid rid e0 Hu Ho Hw).
         intros H. injection H as <-. right. right. right. right.
         exists rid, bytes. exact Hw. }
    rewrite (store_segment_written core data random platform pub bytes sid rid n
               Hu Ho Hw).
    cbv zeta.
    destruct (new_URL platform _ (fileURL core)) as [u | e0];
      [destruct (addSegmentURL data sid pub u)|]; intros H; discriminate H.
  - intros ct pub Hc Ht Hr.
    rewrite (process_resolved core data random platform req id ct pub Hc Ht Hr).
    destruct (readForm platform (r req) (boundary_of ct)); eexists; reflexivity.
  - intros req' ct ct' Hc Ht Hc' Ht' Hb Hr.
    unfold process. rewrite Hc, Hc'.
    destruct ct as [|c s]; [discriminate Ht|].
    destruct ct' as [|c' s']; [discriminate Ht'|].
    rewrite Hb, Hr. reflexivity.
Qed.

(** An upload without any header. *)
Lemma content_type_check_witness :
  process UploadDemo.core (UploadDemo.data (Ok tt)) UploadDemo.random
    (UploadDemo.platform two_bytes)
    (UploadDemo.upload None "XYZ") (Some Demo.adminA)
  = ([], Throw (mkError (String.append "Missing content type header" newline))).
Proof.
  exact (proj1 (content_type_check
                  UploadDemo.core (UploadDemo.data (Ok tt)) UploadDemo.random
                  (UploadDemo.platform two_bytes)
                  (UploadDemo.upload None "XYZ") (Some Demo.adminA))
               eq_refl).
Defined.

(** C6 as stated fails for a header without a boundary parameter: the
    header [text/plain] has no [=], is used whole as the boundary, and an
    upload whose body is delimited by it is ingested without error; for an
    unknown admin token the same header leads to the store's error, not to
    one about the header. *)
Lemma malformed_content_type_counterexample :
  indexOf "=" "text/plain" = (-1)%Z /\
  process UploadDemo.core (UploadDemo.data (Ok tt)) UploadDemo.random
    (UploadDemo.platform two_bytes)
    (UploadDemo.upload (Some "text/plain") "text/plain") (Some "BBBBBBBBBB")
  = ([GetStreamPublicID (Some "BBBBBBBBBB")], Throw Demo.UnknownStream) /\
  ~ (exists e,
       outcome (process UploadDemo.core (UploadDemo.data (Ok tt)) UploadDemo.random
                  (UploadDemo.platform two_bytes)
                  (UploadDemo.upload (Some "text/plain") "text/plain")
                  (Some Demo.adminA)) = Throw e) /\
  segments_registered
    (trace (process UploadDemo.core (UploadDemo.data (Ok tt)) UploadDemo.random
              (UploadDemo.platform two_bytes)
              (UploadDemo.upload (Some "text/plain") "text/plain")
              (Some Demo.adminA))) = 1.
Proof.
  split; [reflexivity|]. split; [reflexivity|]. split; [|reflexivity].
  intros [e H]. vm_compute in H. discriminate H.
Qed.

(** * Further properties *)

(** ** Paths *)

Lemma split_last (a : string) :
  slash_free a = true -> split "/" a = [a].
Proof.
  induction a as [|c a IH]; simpl; [reflexivity|].
  destruct (Ascii.eqb c "/"); simpl; [discriminate|].
  intros H. now rewrite (IH H).
Qed.

Lemma split_segment (a rest : string) :
  slash_free a = true ->
  split "/" (a ++ String "/" rest) = a :: split "/" rest.
Proof.
  induction a as [|c a IH]; simpl; [reflexivity|].
  destruct (Ascii.eqb c "/"); simpl; [discriminate|].
  intros H. now rewrite (IH H).
Qed.

Lemma path_one (req : ServerRequest) (a : string) :
  url req = ("/" ++ a)%string ->
  slash_free a = true ->
  path_of req = [EmptyString; a].
Proof.
  intros Hu Ha. unfold path_of. rewrite Hu.
  change ("/" ++ a)%string with (EmptyString ++ String "/" a)%string.
  rewrite split_segment by reflexivity. now rewrite split_last.
Qed.

Lemma path_two (req : ServerRequest) (a b : string) :
  url req = ("/" ++ a ++ "/" ++ b)%string ->
  slash_free a = true ->
  slash_free b = true ->
  path_of req = [EmptyString; a; b].
Proof.
  intros Hu Ha Hb. unfold path_of. rewrite Hu.
  change ("/" ++ a ++ "/" ++ b)%string
    with (EmptyString ++ String "/" (a ++ String "/" b))%string.
  rewrite split_segment by reflexivity.
  rewrite split_segment by exact Ha. now rewrite split_last.
Qed.

(** ** Method dispatch *)

(** X1. A request whose method is OPTIONS is answered 200 with no body and
    exactly the three CORS headers, whatever its URL and whatever the
    collaborators would do; a request whose method is none of GET, POST,
    PUT, DELETE, OPTIONS (compared exactly, so a lower-case [get] too) is
    answered 400 with the fixed text, again with exactly the CORS
    headers. *)
Theorem other_methods
    (action : RequestsActionsProvider) (data : RequestsDataProvider)
    (uuid : RequestsUUIDProvider) (new_URL : string -> result URL)
    (req : ServerRequest) :
  (method req = "OPTIONS" ->
   handle action data uuid new_URL req
   = {| body := None; status := 200; headers := Some cors_headers |}) /\
  (String.eqb (method req) "GET" = false ->
   String.eqb (method req) "POST" = false ->
   String.eqb (method req) "PUT" = false ->
   String.eqb (method req) "DELETE" = false ->
   String.eqb (method req) "OPTIONS" = false ->
   handle action data uuid new_URL req
   = {| body := Some (encodeText action "This is not a valid request.");
        status := 400;
        headers := Some cors_headers |}).
Proof.
  split.
  - intros H. unfold handle, selectMethod. rewrite H. reflexivity.
  - intros H1 H2 H3 H4 H5. unfold handle, selectMethod.
    rewrite H1, H2, H3, H4, H5. reflexivity.
Qed.

(** A lower-case [get] on the demonstration deployment. *)
Lemma other_methods_witness :
  handle (Demo.actions Demo.no_upload) Demo.data Demo.uuid Demo.new_URL
    (Demo.request "get" "/PPPPPPPPPP" None EmptyString)
  = {| body := Some (list_byte_of_string "This is not a valid request.");
       status := 400;
       headers := Some cors_headers |}.
Proof.
  exact (proj2 (other_methods (Demo.actions Demo.no_upload) Demo.data Demo.uuid
                  Demo.new_URL
                  (Demo.request "get" "/PPPPPPPPPP" None EmptyString))
               eq_refl eq_refl eq_refl eq_refl eq_refl).
Defined.

(** X2. The JSON content type goes with status 200 only: every response
    sent has status 200, 400 or 404; its headers are the three CORS
    headers alone, or, on some responses of status 200, the JSON content
    type followed by them. An error response never declares a content
    type. *)
Theorem content_type_only_on_success
    (action : RequestsActionsProvider) (data : RequestsDataProvider)
    (uuid : RequestsUUIDProvider) (new_URL : string -> result URL)
    (req : ServerRequest) :
  (status (handle action data uuid new_URL req) = 200%Z \/
   status (handle action data uuid new_URL req) = 400%Z \/
   status (handle action data uuid new_URL req) = 404%Z) /\
  (headers (handle action data uuid new_URL req) = Some cors_headers \/
   (status (handle action data uuid new_URL req) = 200%Z /\
    headers (handle action data uuid new_URL req)
    = Some (("content-type", "application/json") :: cors_headers))).
Proof.
  unfold handle. rewrite setCORS_status, setCORS_headers.
  assert (H : (status (selectMethod action data uuid new_URL req) = 200%Z /\
               (headers (selectMethod action data uuid new_URL req) = None \/
                headers (selectMethod action data uuid new_URL req)
                = Some json_headers)) \/
              ((status (selectMethod action data uuid new_URL req) = 400%Z \/
                status (selectMethod action data uuid new_URL req) = 404%Z) /\
               headers (selectMethod action data uuid new_URL req) = None)).
  { unfold_handlers. rewrite set_content_type.
    handler_cases; simpl; auto. }
  destruct H as [[Hs [Hh | Hh]] | [Hs Hh]]; rewrite Hh; simpl.
  - split; [now left | now left].
  - split; [now left | right; now split].
  - split; [right; exact Hs | now left].
Qed.

(** ** Routes *)

(** X3. GET /{publicID} with nothing after the identifier asks for the
    whole playlist: the segment-list query is made with the identifier and
    no cursor, whatever the validator would answer for a missing segment,
    and the response is the JSON of its result, or 404 with its message. *)
Theorem playlist_without_cursor
    (action : RequestsActionsProvider) (data : RequestsDataProvider)
    (uuid : RequestsUUIDProvider) (new_URL : string -> result URL)
    (req : ServerRequest) (p : string) :
  method req = "GET" ->
  url req = ("/" ++ p)%string ->
  slash_free p = true ->
  validateUUID uuid (Some p) = true ->
  selectMethod action data uuid new_URL req
  = match getSegmentList data (Some p) None with
    | Ok l =>
        {| body := Some (encodeText action (JSON_stringify (json_of_segments l)));
           status := 200;
           headers := Some [("content-type", "application/json")] |}
    | Throw e => error_response action e
    end.
Proof.
  intros Hm Hu Hp Hv.
  unfold selectMethod. rewrite Hm. simpl String.eqb. cbv iota.
  unfold get, get_try, cursor. rewrite (path_one req p Hu Hp).
  change (at_ [EmptyString; p] 1) with (Some p).
  change (at_ [EmptyString; p] 2) with (@None string).
  rewrite Hv. simpl negb. simpl is_lit. cbv iota. rewrite set_content_type.
  assert (C : (if validateUUID uuid None then @None string else None) = None)
    by (destruct (validateUUID uuid None); reflexivity).
  rewrite C. unfold try_catch, bind, await, json_response, failure, error_response.
  destruct (getSegmentList data (Some p) None); reflexivity.
Qed.

(** GET /PPPPPPPPPP on the demonstration deployment: both segments. *)
Lemma playlist_without_cursor_witness :
  selectMethod (Demo.actions Demo.no_upload) Demo.data Demo.uuid Demo.new_URL
    (Demo.request "GET" "/PPPPPPPPPP" None EmptyString)
  = {| body := Some (list_byte_of_string
                       (JSON_stringify (json_of_segments [Demo.first; Demo.later])));
       status := 200;
       headers := Some [("content-type", "application/json")] |}.
Proof.
  exact (playlist_without_cursor
           (Demo.actions Demo.no_upload) Demo.data Demo.uuid Demo.new_URL
           (Demo.request "GET" "/PPPPPPPPPP" None EmptyString) Demo.publicP
           eq_refl eq_refl eq_refl eq_refl).
Defined.

(** X4. The keyword routes of GET win over the playlist: for
    /{adminID}/hubs the response is the JSON array of the connected hubs
    (404 with the message if the lookup fails), and for /{adminID}/admin
    the stream record, even when the validator accepts the keyword as an
    identifier; the segment-list query is not consulted. *)
Theorem keyword_routes_first
    (action : RequestsActionsProvider) (data : RequestsDataProvider)
    (uuid : RequestsUUIDProvider) (new_URL : string -> result URL)
    (req : ServerRequest) (a : string) :
  method req = "GET" ->
  slash_free a = true ->
  validateUUID uuid (Some a) = true ->
  (url req = ("/" ++ a ++ "/" ++ "hubs")%string ->
   selectMethod action data uuid new_URL req
   = match connectedHubs action (Some a) with
     | Ok hubs =>
         {| body := Some (encodeText action (JSON_stringify (JArray (map JString hubs))));
            status := 200;
            headers := Some [("content-type", "application/json")] |}
     | Throw e => error_response action e
     end) /\
  (url req = ("/" ++ a ++ "/" ++ "admin")%string ->
   selectMethod action data uuid new_URL req
   = match fetchStream action (Some a) with
     | Ok d =>
         {| body := Some (encodeText action (JSON_stringify (json_of_stream d)));
            status := 200;
            headers := Some [("content-type", "application/json")] |}
     | Throw e => error_response action e
     end).
Proof.
  intros Hm Ha Hv. split; intros Hu;
    unfold selectMethod; rewrite Hm; simpl String.eqb; cbv iota;
    unfold get, get_try; rewrite (path_two req a _ Hu Ha eq_refl).
  - change (at_ [EmptyString; a; "hubs"] 1) with (Some a).
    change (at_ [EmptyString; a; "hubs"] 2) with (Some "hubs").
    rewrite Hv. simpl negb. simpl is_lit. cbv iota. rewrite set_content_type.
    unfold try_catch, bind, await, json_response, failure, error_response,
      json_of_hubs.
    destruct (connectedHubs action (Some a)); reflexivity.
  - change (at_ [EmptyString; a; "admin"] 1) with (Some a).
    change (at_ [EmptyString; a; "admin"] 2) with (Some "admin").
    rewrite Hv. simpl negb. simpl is_lit. cbv iota. rewrite set_content_type.
    unfold try_catch, bind, await, json_response, failure, error_response.
    destruct (fetchStream action (Some a)); reflexivity.
Qed.

(** GET /AAAAAAAAAA/hubs on the demonstration deployment: no hub yet. *)
Lemma keyword_routes_first_witness :
  selectMethod (Demo.actions Demo.no_upload) Demo.data Demo.uuid Demo.new_URL
    (Demo.request "GET" "/AAAAAAAAAA/hubs" None EmptyString)
  = {| body := Some (list_byte_of_string "[]");
       status := 200;
       headers := Some [("content-type", "application/json")] |}.
Proof.
  exact (proj1 (keyword_routes_first
                  (Demo.actions Demo.no_upload) Demo.data Demo.uuid Demo.new_URL
                  (Demo.request "GET" "/AAAAAAAAAA/hubs" None EmptyString)
                  Demo.adminA eq_refl eq_refl eq_refl)
               eq_refl).
Defined.

(** X5. POST with [stream] as first path segment creates a stream before
    any identifier validation: the validator and the upload action play no
    part, and a failed creation is answered 404 with its message. *)
Theorem stream_creation_first
    (action : RequestsActionsProvider) (data : RequestsDataProvider)
    (uuid : RequestsUUIDProvider) (new_URL : string -> result URL)
    (req : ServerRequest) :
  method req = "POST" ->
  at_ (path_of req) 1 = Some "stream" ->
  selectMethod action data uuid new_URL req
  = match createStream action with
    | Ok d =>
        {| body := Some (encodeText action (JSON_stringify (json_of_stream d)));
           status := 200;
           headers := Some [("content-type", "application/json")] |}
    | Throw e => error_response action e
    end.
Proof.
  intros Hm Hp.
  unfold selectMethod. rewrite Hm. simpl String.eqb. cbv iota.
  unfold post, post_try. rewrite Hp. simpl is_lit. cbv iota.
  rewrite set_content_type.
  unfold try_catch, bind, await, json_response, failure, error_response.
  destruct (createStream action); reflexivity.
Qed.

(** POST /stream/anything with a validator that rejects [stream]. *)
Lemma stream_creation_first_witness :
  status (selectMethod (Demo.actions Demo.no_upload) Demo.data Demo.uuid
            Demo.new_URL
            (Demo.request "POST" "/stream/anything" None EmptyString)) = 200%Z.
Proof.
  exact (f_equal status
           (stream_creation_first
              (Demo.actions Demo.no_upload) Demo.data Demo.uuid Demo.new_URL
              (Demo.request "POST" "/stream/anything" None EmptyString)
              eq_refl eq_refl)).
Defined.

(** X6. POST /{adminID} for any other first segment: a segment the
    validator rejects is answered 404 [Invalid path] without the upload
    action; otherwise the answer is 200 with the text [Success] and a line
    feed, and no content type, when the upload action succeeds, and 404
    with its message when it fails. *)
Theorem upload_route
    (action : RequestsActionsProvider) (data : RequestsDataProvider)
    (uuid : RequestsUUIDProvider) (new_URL : string -> result URL)
    (req : ServerRequest) (a : string) :
  method req = "POST" ->
  url req = ("/" ++ a)%string ->
  slash_free a = true ->
  String.eqb a "stream" = false ->
  selectMethod action data uuid new_URL req
  = if validateUUID uuid (Some a) then
      match processUploadFormData action req (Some a) with
      | Ok _ =>
          {| body := Some (encodeText action
                             (String.append "Success" (String "010" EmptyString)));
             status := 200;
             headers := None |}
      | Throw e => error_response action e
      end
    else error_response action (mkError "Invalid path").
Proof.
  intros Hm Hu Ha Hs.
  unfold selectMethod. rewrite Hm. simpl String.eqb. cbv iota.
  unfold post, post_try. rewrite (path_one req a Hu Ha).
  change (at_ [EmptyString; a] 1) with (Some a).
  unfold is_lit. rewrite Hs.
  destruct (validateUUID uuid (Some a)); simpl negb; cbv iota.
  - unfold try_catch, bind, await, failure, error_response.
    destruct (processUploadFormData action req (Some a)); reflexivity.
  - reflexivity.
Qed.

(** POST /too-short on the demonstration deployment. *)
Lemma upload_route_witness :
  selectMethod (Demo.actions Demo.no_upload) Demo.data Demo.uuid Demo.new_URL
    (Demo.request "POST" "/too-short" None EmptyString)
  = {| body := Some (list_byte_of_string "Invalid path");
       status := 404;
       headers := None |}.
Proof.
  exact (upload_route
           (Demo.actions Demo.no_upload) Demo.data Demo.uuid Demo.new_URL
           (Demo.request "POST" "/too-short" None EmptyString) "too-short"
           eq_refl eq_refl eq_refl eq_refl).
Defined.

(** ** Hub administration requests *)

(** X7. PUT and DELETE check the path before the body: when the first
    segment fails validation or the second is not [admin], the answer is
    404 [Invalid path] whatever the body; with a valid path and a content
    length that is absent or zero, the answer is 404 [No data], and neither
    the body nor a hub action has any part in it. *)
Theorem admin_checks_order
    (action : RequestsActionsProvider) (data : RequestsDataProvider)
    (uuid : RequestsUUIDProvider) (new_URL : string -> result URL)
    (req : ServerRequest) :
  method req = "PUT" \/ method req = "DELETE" ->
  (validateUUID uuid (at_ (path_of req) 1) = false \/
   is_lit (at_ (path_of req) 2) "admin" = false ->
   selectMethod action data uuid new_URL req
   = error_response action (mkError "Invalid path")) /\
  (validateUUID uuid (at_ (path_of req) 1) = true ->
   is_lit (at_ (path_of req) 2) "admin" = true ->
   truthy_number (contentLength req) = false ->
   selectMethod action data uuid new_URL req
   = error_response action (mkError "No data")).
Proof.
  intros Hm. split.
  - intros H.
    assert (G : orb (negb (validateUUID uuid (at_ (path_of req) 1)))
                    (negb (is_lit (at_ (path_of req) 2) "admin")) = true).
    { destruct H as [H | H]; rewrite H; simpl; [reflexivity|].
      apply orb_true_r. }
    destruct Hm as [Hm | Hm]; unfold selectMethod; rewrite Hm; simpl String.eqb;
      cbv iota.
    + unfold put, put_try. rewrite G. reflexivity.
    + unfold delete, delete_try. rewrite G. reflexivity.
  - intros Hv Ha Hl.
    destruct Hm as [Hm | Hm]; unfold selectMethod; rewrite Hm; simpl String.eqb;
      cbv iota.
    + unfold put, put_try. rewrite Hv, Ha, Hl. reflexivity.
    + unfold delete, delete_try. rewrite Hv, Ha, Hl. reflexivity.
Qed.

(** DELETE /AAAAAAAAAA/admin without a body on the demonstration
    deployment. *)
Lemma admin_checks_order_witness :
  selectMethod (Demo.actions Demo.no_upload) Demo.data Demo.uuid Demo.new_URL
    (Demo.request "DELETE" "/AAAAAAAAAA/admin" (Some 0%Z) EmptyString)
  = {| body := Some (list_byte_of_string "No data");
       status := 404;
       headers := None |}.
Proof.
  exact (proj2 (admin_checks_order
                  (Demo.actions Demo.no_upload) Demo.data Demo.uuid Demo.new_URL
                  (Demo.request "DELETE" "/AAAAAAAAAA/admin" (Some 0%Z) EmptyString)
                  (or_intror eq_refl))
               eq_refl eq_refl eq_refl).
Defined.

(** X8. PUT /{adminID}/admin with a body: a body that cannot be read, and
    a body whose text is not a URL, are each answered 404 with the
    message of that error; the hub is not connected. *)
Theorem hub_url_checked
    (action : RequestsActionsProvider) (data : RequestsDataProvider)
    (uuid : RequestsUUIDProvider) (new_URL : string -> result URL)
    (req : ServerRequest) (a : string) :
  method req = "PUT" ->
  url req = ("/" ++ a ++ "/" ++ "admin")%string ->
  slash_free a = true ->
  validateUUID uuid (Some a) = true ->
  truthy_number (contentLength req) = true ->
  (forall e, req_body req = Throw e ->
             selectMethod action data uuid new_URL req = error_response action e) /\
  (forall bytes e,
     req_body req = Ok bytes ->
     new_URL (decodeText action bytes) = Throw e ->
     selectMethod action data uuid new_URL req = error_response action e).
Proof.
  intros Hm Hu Ha Hv Hl.
  assert (E : selectMethod action data uuid new_URL req
              = try_catch (put_try action uuid new_URL req [EmptyString; a; "admin"])
                          (failure action)).
  { unfold selectMethod. rewrite Hm. simpl String.eqb. cbv iota.
    unfold put. now rewrite (path_two req a _ Hu Ha eq_refl). }
  rewrite E. unfold put_try.
  change (at_ [EmptyString; a; "admin"] 1) with (Some a).
  change (at_ [EmptyString; a; "admin"] 2) with (Some "admin").
  rewrite Hv, Hl. simpl negb. simpl is_lit. simpl orb. cbv iota.
  split.
  - intros e He. rewrite He. reflexivity.
  - intros bytes e Hb He. rewrite Hb. simpl bind. rewrite He. reflexivity.
Qed.

(** PUT /AAAAAAAAAA/admin with a body that is no URL. *)
Lemma hub_url_checked_witness :
  selectMethod (Demo.actions Demo.no_upload) Demo.data Demo.uuid Demo.new_URL
    (Demo.request "PUT" "/AAAAAAAAAA/admin" (Some 9%Z) "not a url")
  = {| body := Some (list_byte_of_string "Invalid URL");
       status := 404;
       headers := None |}.
Proof.
  exact (proj2 (hub_url_checked
                  (Demo.actions Demo.no_upload) Demo.data Demo.uuid Demo.new_URL
                  (Demo.request "PUT" "/AAAAAAAAAA/admin" (Some 9%Z) "not a url")
                  Demo.adminA eq_refl eq_refl eq_refl eq_refl eq_refl)
               (list_byte_of_string "not a url") (mkError "Invalid URL")
               eq_refl eq_refl).
Defined.

(** X9. DELETE /{adminID}/admin with a readable body disconnects the hub
    named by the decoded body from the stream named by the first path
    segment, and waits for it: the answer is 200 with no body when the
    disconnection succeeds and 404 with its message when it fails. *)
Theorem delete_disconnects
    (action : RequestsActionsProvider) (data : RequestsDataProvider)
    (uuid : RequestsUUIDProvider) (new_URL : string -> result URL)
    (req : ServerRequest) (a : string) (bytes : Uint8Array) :
  method req = "DELETE" ->
  url req = ("/" ++ a ++ "/" ++ "admin")%string ->
  slash_free a = true ->
  validateUUID uuid (Some a) = true ->
  truthy_number (contentLength req) = true ->
  req_body req = Ok bytes ->
  selectMethod action data uuid new_URL req
  = match disconnectStreamFromHub action (decodeText action bytes) (Some a) with
    | Ok _ => empty_response
    | Throw e => error_response action e
    end.
Proof.
  intros Hm Hu Ha Hv Hl Hb.
  unfold selectMethod. rewrite Hm. simpl String.eqb. cbv iota.
  unfold delete, delete_try. rewrite (path_two req a _ Hu Ha eq_refl).
  change (at_ [EmptyString; a; "admin"] 1) with (Some a).
  change (at_ [EmptyString; a; "admin"] 2) with (Some "admin").
  rewrite Hv, Hl, Hb. simpl negb. simpl is_lit. simpl orb. cbv iota.
  unfold try_catch, bind, await, failure, error_response, empty_response.
  destruct (disconnectStreamFromHub action (decodeText action bytes) (Some a));
    reflexivity.
Qed.

(** DELETE /AAAAAAAAAA/admin with a hub handle on the demonstration
    deployment: the stream is known, the handle is not registered, and the
    answer is 200. *)
Lemma delete_disconnects_witness :
  selectMethod (Demo.actions Demo.no_upload) Demo.data Demo.uuid Demo.new_URL
    (Demo.request "DELETE" "/AAAAAAAAAA/admin" (Some 10%Z) Demo.hubH)
  = empty_response.
Proof.
  exact (delete_disconnects
           (Demo.actions Demo.no_upload) Demo.data Demo.uuid Demo.new_URL
           (Demo.request "DELETE" "/AAAAAAAAAA/admin" (Some 10%Z) Demo.hubH)
           Demo.adminA (list_byte_of_string Demo.hubH)
           eq_refl eq_refl eq_refl eq_refl eq_refl eq_refl).
Defined.

(** ** The multipart boundary *)

Lemma indexOf_from_equals (a rest : string) (i : Z) :
  equals_free a = true ->
  indexOf_from "=" (a ++ String "=" rest) i = (i + Z.of_nat (String.length a))%Z.
Proof.
  revert i. induction a as [|c a IH]; intros i; simpl String.length.
  - intros _. simpl. lia.
  - simpl. destruct (Ascii.eqb c "="); simpl; [discriminate|].
    intros H. rewrite (IH _ H). lia.
Qed.

Lemma drop_past (a rest : string) :
  drop (S (String.length a)) (a ++ String "=" rest) = rest.
Proof. induction a as [|c a IH]; simpl; [reflexivity | exact IH]. Qed.

(** X10. The boundary handed to the multipart reader is everything after
    the first [=] of the content-type header: for a header made of a part
    without [=], then [=], then any text, the boundary is that text, other
    parameters and further [=] signs included. *)
Theorem boundary_after_first_equals (a rest : string) :
  equals_free a = true ->
  boundary_of (a ++ "=" ++ rest) = rest.
Proof.
  intros H. unfold boundary_of, indexOf.
  change (a ++ "=" ++ rest)%string with (a ++ String "=" rest)%string.
  rewrite (indexOf_from_equals a rest 0 H). unfold substr.
  replace (0 + Z.of_nat (String.length a) + 1 <? 0)%Z with false
    by (symmetry; apply Z.ltb_ge; lia).
  replace (Z.to_nat (0 + Z.of_nat (String.length a) + 1))
    with (S (String.length a)) by lia.
  apply drop_past.
Qed.

(** A header whose boundary parameter is followed by a second one. *)
Lemma boundary_after_first_equals_witness :
  boundary_of "multipart/form-data; boundary=XYZ; charset=utf-8"
  = "XYZ; charset=utf-8".
Proof.
  exact (boundary_after_first_equals
           "multipart/form-data; boundary" "XYZ; charset=utf-8" eq_refl).
Defined.

(** ** Failures during ingestion *)

(** X11. Once the payload has been written, ingestion cannot fail: with a
    header, a known token, a form with one [audio] file carrying content,
    and identifier, open and write succeeding, [process] ends without
    error and has written one file, whatever becomes of the URL and of
    the registration. When the segment URL cannot be built, no
    registration is attempted and the failure is logged on the console. *)
Theorem written_then_success
    (core : UploadCoreProvider) (data : UploadDataProvider)
    (random : UploadRandomProvider) (platform : Platform)
    (req : ServerRequest) (id : option string)
    (ct pub sid : string) (form : MultipartFormData) (f : FormFile)
    (bytes : Uint8Array) (rid n : Z) :
  Js.get "content-type" (req_headers req) = Some ct ->
  truthy_string (Some ct) = true ->
  getStreamPublicIDFromStreamAdminID data id = Ok pub ->
  readForm platform (r req) (boundary_of ct) = Ok form ->
  file form "audio" = OneFile f ->
  content f = Some bytes ->
  uuid random = Ok sid ->
  open platform
    (join platform
       [rootDir core; "audio"; join platform [pub; String.append sid ".opus"]])
    = Ok rid ->
  write platform rid bytes = Ok n ->
  outcome (process core data random platform req id) = Ok tt /\
  files_written (trace (process core data random platform req id)) = 1 /\
  (forall e,
     new_URL platform (join platform [pub; String.append sid ".opus"])
       (fileURL core) = Throw e ->
     trace (process core data random platform req id)
     = [GetStreamPublicID id;
        ReadForm (boundary_of ct);
        Uuid;
        Open (join platform
                [rootDir core; "audio";
                 join platform [pub; String.append sid ".opus"]]);
        Write rid bytes;
        Close rid;
        ConsoleError
          (String.append "Failed to create segment entry "
             (String.append sid (String.append " for " pub)))]).
Proof.
  intros Hc Ht Hr Hf Ha Hb Hu Ho Hw.
  rewrite (process_resolved core data random platform req id ct pub Hc Ht Hr), Hf.
  unfold after_form. rewrite Ha, Hb.
  rewrite (store_segment_written core data random platform pub bytes sid rid n
             Hu Ho Hw).
  cbv zeta.
  destruct (new_URL platform _ (fileURL core)) as [u | e'].
  - destruct (addSegmentURL data sid pub u); repeat split; intros ? H;
      discriminate H.
  - repeat split.
Qed.

(** A platform on which no URL can be built. *)
Lemma written_then_success_witness :
  outcome (process UploadDemo.core (UploadDemo.data (Ok tt)) UploadDemo.random
             no_url_platform
             (UploadDemo.upload UploadDemo.multipart "XYZ") (Some Demo.adminA))
  = Ok tt.
Proof.
  exact (proj1 (written_then_success
                  UploadDemo.core (UploadDemo.data (Ok tt)) UploadDemo.random
                  no_url_platform
                  (UploadDemo.upload UploadDemo.multipart "XYZ") (Some Demo.adminA)
                  "multipart/form-data; boundary=XYZ" Demo.publicP Demo.segmentS
                  two_bytes (UploadDemo.opus [x01; x02]) [x01; x02] 3%Z 2%Z
                  eq_refl eq_refl eq_refl eq_refl eq_refl eq_refl eq_refl eq_refl
                  eq_refl)).
Defined.

(** X12. A failure before the payload is safely written is thrown by
    [process] and stops the run where it happens: a form that cannot be
    read, an identifier that cannot be generated, a file that cannot be
    opened or written. Nothing is registered or logged, and after a write
    that fails the opened file is not closed. *)
Theorem storage_failure_propagates
    (core : UploadCoreProvider) (data : UploadDataProvider)
    (random : UploadRandomProvider) (platform : Platform)
    (req : ServerRequest) (id : option string) (ct pub : string) :
  Js.get "content-type" (req_headers req) = Some ct ->
  truthy_string (Some ct) = true ->
  getStreamPublicIDFromStreamAdminID data id = Ok pub ->
  (forall e,
     readForm platform (r req) (boundary_of ct) = Throw e ->
     process core data random platform req id
     = ([GetStreamPublicID id; ReadForm (boundary_of ct)], Throw e)) /\
  (forall form f bytes,
     readForm platform (r req) (boundary_of ct) = Ok form ->
     file form "audio" = OneFile f ->
     content f = Some bytes ->
     (forall e,
        uuid random = Throw e ->
        process core data random platform req id
        = ([GetStreamPublicID id; ReadForm (boundary_of ct); Uuid], Throw e)) /\
     (forall sid e,
        uuid random = Ok sid ->
        open platform
          (join platform
             [rootDir core; "audio"; join platform [pub; String.append sid ".opus"]])
          = Throw e ->
        process core data random platform req id
        = ([GetStreamPublicID id; ReadForm (boundary_of ct); Uuid;
            Open (join platform
                    [rootDir core; "audio";
                     join platform [pub; String.append sid ".opus"]])],
           Throw e)) /\
     (forall sid rid e,
        uuid random = Ok sid ->
        open platform
          (join platform
             [rootDir core; "audio"; join platform [pub; String.append sid ".opus"]])
          = Ok rid ->
        write platform rid bytes = Throw e ->
        process core data random platform req id
        = ([GetStreamPublicID id; ReadForm (boundary_of ct); Uuid;
            Open (join platform
                    [rootDir core; "audio";
                     join platform [pub; String.append sid ".opus"]]);
            Write rid bytes],
           Throw e))).
Proof.
  intros Hc Ht Hr.
  rewrite (process_resolved core data random platform req id ct pub Hc Ht Hr).
  split.
  - intros e He. now rewrite He.
  - intros form f bytes Hf Ha Hb. rewrite Hf. unfold after_form.
    rewrite Ha, Hb. split; [|split].
    + intros e Hu.
      now rewrite (store_segment_no_identifier core data random platform pub
                     bytes e Hu).
    + intros sid e Hu Ho.
      now rewrite (store_segment_not_opened core data random platform pub bytes
                     sid e Hu Ho).
    + intros sid rid e Hu Ho Hw.
      now rewrite (store_segment_not_written core data random platform pub bytes
                     sid rid e Hu Ho Hw).
Qed.

(** An upload whose body is not delimited by the boundary of its header. *)
Lemma storage_failure_propagates_witness :
  process UploadDemo.core (UploadDemo.data (Ok tt)) UploadDemo.random
    (UploadDemo.platform two_bytes)
    (UploadDemo.upload UploadDemo.multipart "ABC") (Some Demo.adminA)
  = ([GetStreamPublicID (Some Demo.adminA); ReadForm "XYZ"],
     Throw (mkError "UnexpectedEof")).
Proof.
  exact (proj1 (storage_failure_propagates
                  UploadDemo.core (UploadDemo.data (Ok tt)) UploadDemo.random
                  (UploadDemo.platform two_bytes)
                  (UploadDemo.upload UploadDemo.multipart "ABC") (Some Demo.adminA)
                  "multipart/form-data; boundary=XYZ" Demo.publicP
                  eq_refl eq_refl eq_refl)
               (mkError "UnexpectedEof") eq_refl).
Defined.

(** X13. In every run of [process], whatever the collaborators do: a
    registration is attempted only after the write of the payload has
    succeeded, a console message is written only in a run that ends
    without error, and at most one file is written and at most one segment
    registered. *)
Theorem registration_follows_write
    (core : UploadCoreProvider) (data : UploadDataProvider)
    (random : UploadRandomProvider) (platform : Platform)
    (req : ServerRequest) (id : option string) :
  (forall sid pub segmentURL,
     In (AddSegmentURL sid pub segmentURL)
        (trace (process core data random platform req id)) ->
     outcome (process core data random platform req id) = Ok tt /\
     exists rid bytes n,
       In (Write rid bytes) (trace (process core data random platform req id)) /\
       write platform rid bytes = Ok n) /\
  (forall text,
     In (ConsoleError text) (trace (process core data random platform req id)) ->
     outcome (process core data random platform req id) = Ok tt) /\
  files_written (trace (process core data random platform req id)) <= 1 /\
  segments_registered (trace (process core data random platform req id)) <= 1.
Proof.
  assert (No : forall (t : list event) (o : result unit),
             (forall ev, In ev t ->
                match ev with
                | AddSegmentURL _ _ _ | ConsoleError _ | Write _ _ => False
                | _ => True
                end) ->
             (forall sid pub segmentURL,
                In (AddSegmentURL sid pub segmentURL) t ->
                o = Ok tt /\
                exists rid bytes n,
                  In (Write rid bytes) t /\ write platform rid bytes = Ok n) /\
             (forall text, In (ConsoleError text) t -> o = Ok tt) /\
             files_written t <= 1 /\ segments_registered t <= 1).
  { intros t o H. split; [|split; [|split]].
    - intros sid pub u Hi. destruct (H _ Hi).
    - intros text Hi. destruct (H _ Hi).
    - unfold files_written. induction t as [|ev t IH]; simpl; [lia|].
      destruct ev; simpl; try (apply IH; intros ? ?; apply H; now right).
      exfalso. exact (H _ (or_introl eq_refl)).
    - unfold segments_registered. induction t as [|ev t IH]; simpl; [lia|].
      destruct ev; simpl; try (apply IH; intros ? ?; apply H; now right).
      exfalso. exact (H _ (or_introl eq_refl)). }
  assert (Quiet : forall evs : list event,
             forallb (fun ev => match ev with
                                | AddSegmentURL _ _ _ | ConsoleError _ | Write _ _ =>
                                    false
                                | _ => true
                                end) evs = true ->
             forall ev, In ev evs ->
               match ev with
               | AddSegmentURL _ _ _ | ConsoleError _ | Write _ _ => False
               | _ => True
               end).
  { intros evs Hq ev Hi. rewrite forallb_forall in Hq. specialize (Hq ev Hi).
    destruct ev; try exact I; discriminate Hq. }
  destruct (truthy_string (Js.get "content-type" (req_headers req))) eqn:Ht.
  2: { rewrite (process_no_header core data random platform req id Ht).
       apply No, Quiet. reflexivity. }
  destruct (Js.get "content-type" (req_headers req)) as [ct|] eqn:Hc;
    [|discriminate Ht].
  destruct (getStreamPublicIDFromStreamAdminID data id) as [pub | e] eqn:Hr.
  2: { rewrite (process_unresolved core data random platform req id ct e Hc Ht Hr).
       apply No, Quiet. reflexivity. }
  rewrite (process_resolved core data random platform req id ct pub Hc Ht Hr).
  destruct (readForm platform (r req) (boundary_of ct)) as [form | e].
  2: { apply No, Quiet. reflexivity. }
  unfold after_form.
  destruct (file form "audio") as [| f | fs]; try (apply No, Quiet; reflexivity).
  destruct (content f) as [bytes|]; [|apply No, Quiet; reflexivity].
  destruct (uuid random) as [sid | e] eqn:Hu.
  2: { rewrite (store_segment_no_identifier core data random platform pub bytes
                  e Hu).
       apply No, Quiet. reflexivity. }
  destruct (open platform
              (join platform
                 [rootDir core; "audio";
                  join platform [pub; String.append sid ".opus"]]))
    as [rid | e] eqn:Ho.
  2: { rewrite (store_segment_not_opened core data random platform pub bytes
                  sid e Hu Ho).
       apply No, Quiet. reflexivity. }
  destruct (write platform rid bytes) as [n | e] eqn:Hw.
  2: { rewrite (store_segment_not_written core data random platform pub bytes
                  sid rid e Hu Ho Hw).
       unfold trace, outcome, files_written, segments_registered. simpl.
       split; [|split; [|split]]; [| |lia|lia].
       - intros s p u [H | [H | [H | [H | [H | []]]]]]; discriminate H.
       - intros text [H | [H | [H | [H | [H | []]]]]]; discriminate H. }
  rewrite (store_segment_written core data random platform pub bytes sid rid n
             Hu Ho Hw).
  cbv zeta.
  destruct (new_URL platform _ (fileURL core)) as [u | e].
  - destruct (addSegmentURL data sid pub u) as [[] | e];
      unfold trace, outcome, files_written, segments_registered; simpl;
      (split; [|split; [|split]]); try lia; try (intros; reflexivity);
      (intros; split; [reflexivity|]; exists rid, bytes, n;
       split; [tauto | exact Hw]).
  - unfold trace, outcome, files_written, segments_registered; simpl.
    split; [|split; [|split]]; try lia; try (intros; reflexivity).
    intros; split; [reflexivity|]. exists rid, bytes, n.
    split; [tauto | exact Hw].
Qed.

(** The registration of the two-byte upload comes after its write. *)
Lemma registration_follows_write_witness :
  exists rid bytes n,
    In (Write rid bytes)
       (trace (process UploadDemo.core (UploadDemo.data (Ok tt)) UploadDemo.random
                 (UploadDemo.platform two_bytes)
                 (UploadDemo.upload UploadDemo.multipart "XYZ")
                 (Some Demo.adminA))) /\
    write (UploadDemo.platform two_bytes) rid bytes = Ok n.
Proof.
  refine (proj2 (proj1 (registration_follows_write
                   UploadDemo.core (UploadDemo.data (Ok tt)) UploadDemo.random
                   (UploadDemo.platform two_bytes)
                   (UploadDemo.upload UploadDemo.multipart "XYZ")
                   (Some Demo.adminA))
                 Demo.segmentS Demo.publicP
                 "https://files.example/PPPPPPPPPP/SSSSSSSSSS.opus" _)).
  vm_compute. tauto.
Defined.

(** X14. Errors of the upload reach the uploader: when the upload action of
    the dispatcher is [process], a POST /{adminID} without a content-type
    header is answered 404 with the missing-header message, and one for a
    token the store does not resolve is answered 404 with the store's
    message. *)
Theorem upload_errors_surface
    (core : UploadCoreProvider) (store : UploadDataProvider)
    (random : UploadRandomProvider) (platform : Platform)
    (action : RequestsActionsProvider) (data : RequestsDataProvider)
    (validator : RequestsUUIDProvider) (new_URL : string -> result URL)
    (req : ServerRequest) (a : string) :
  method req = "POST" ->
  url req = ("/" ++ a)%string ->
  slash_free a = true ->
  String.eqb a "stream" = false ->
  validateUUID validator (Some a) = true ->
  processUploadFormData action req (Some a)
    = outcome (process core store random platform req (Some a)) ->
  (truthy_string (Js.get "content-type" (req_headers req)) = false ->
   selectMethod action data validator new_URL req
   = error_response action
       (mkError (String.append "Missing content type header" newline))) /\
  (forall ct e,
     Js.get "content-type" (req_headers req) = Some ct ->
     truthy_string (Some ct) = true ->
     getStreamPublicIDFromStreamAdminID store (Some a) = Throw e ->
     selectMethod action data validator new_URL req = error_response action e).
Proof.
  intros Hm Hu Ha Hs Hv Hw.
  assert (E : selectMethod action data validator new_URL req
              = match processUploadFormData action req (Some a) with
                | Ok _ =>
                    {| body := Some (encodeText action
                                       (String.append "Success"
                                          (String "010" EmptyString)));
                       status := 200;
                       headers := None |}
                | Throw e => error_response action e
                end).
  { unfold selectMethod. rewrite Hm. simpl String.eqb. cbv iota.
    unfold post, post_try. rewrite (path_one req a Hu Ha).
    change (at_ [EmptyString; a] 1) with (Some a).
    unfold is_lit. rewrite Hs, Hv. simpl negb. cbv iota.
    unfold try_catch, bind, await, failure, error_response.
    destruct (processUploadFormData action req (Some a)); reflexivity. }
  rewrite E, Hw. split.
  - intros Ht.
    now rewrite (process_no_header core store random platform req (Some a) Ht).
  - intros ct e Hc Ht He.
    now rewrite (process_unresolved core store random platform req (Some a) ct e
                   Hc Ht He).
Qed.

(** A POST upload without a header on the demonstration deployment. *)
Lemma upload_errors_surface_witness :
  selectMethod (Demo.actions (served (UploadDemo.data (Ok tt)) two_bytes))
    Demo.data Demo.uuid Demo.new_URL (UploadDemo.upload None "XYZ")
  = {| body := Some (list_byte_of_string
                       (String.append "Missing content type header" newline));
       status := 404;
       headers := None |}.
Proof.
  exact (proj1 (upload_errors_surface
                  UploadDemo.core (UploadDemo.data (Ok tt)) UploadDemo.random
                  (UploadDemo.platform two_bytes)
                  (Demo.actions (served (UploadDemo.data (Ok tt)) two_bytes))
                  Demo.data Demo.uuid Demo.new_URL
                  (UploadDemo.upload None "XYZ") Demo.adminA
                  eq_refl eq_refl eq_refl eq_refl eq_refl eq_refl)
               eq_refl).
Defined.

(** ** Generating the configuration *)

#[local] Set Warnings "-notation-overridden".
Import Configure.

(** X15. In the [test] environment [generate] only writes the nginx
    configuration, into the root file directory whatever the system, and
    prints it; it runs no command. The text written is the nginx template
    for the ports, the server name and the root of the instance, with the
    cache age in days multiplied by 24, 60 and 60. A failed write is
    thrown, and the text is then not printed. *)
Theorem test_writes_only
    (number : Type) (times : number -> number -> number)
    (literal : Z -> number) (show : number -> string) (truthy : number -> bool)
    (platform : Platform)
    (nginxPort : number) (serverName : string) (sludgePort : number)
    (rootFilePath : string) (cacheAgeDays : number)
    (idLength : option number) (idAlphabet : option string)
    (nginxConfFileName serviceFileName : option string)
    (filesURL publicURL : option URL) :
  let path :=
    join platform
      [rootFilePath;
       String.append (default nginxConfFileName "sludge_nginx") ".conf"] in
  let text :=
    nginxTemplate number show nginxPort serverName sludgePort
      (times (times (times cacheAgeDays (literal 24%Z)) (literal 60%Z))
         (literal 60%Z))
      rootFilePath in
  generate number show truthy platform
    (constructor number times literal platform (Some "test") nginxPort serverName
       sludgePort rootFilePath cacheAgeDays idLength idAlphabet nginxConfFileName
       serviceFileName filesURL publicURL)
  = match writeTextFile platform path text with
    | Ok _ =>
        ([ConsoleLog ["Writing file to"; path];
          WriteTextFile path text;
          ConsoleLog [text]],
         Ok tt)
    | Throw e =>
        ([ConsoleLog ["Writing file to"; path]; WriteTextFile path text], Throw e)
    end.
Proof.
  intros path text. unfold generate, constructor. simpl.
  unfold test, nginx_of, mbind, perform, await. simpl.
  fold path. fold text.
  destruct (writeTextFile platform path text) as [[] | e]; reflexivity.
Qed.

(** X16. [generate] refuses what it does not support before changing
    anything: [development] on a system other than darwin or linux
    announces the file but writes nothing and throws; [production] on a
    system other than linux throws at once; an environment that is none of
    the three throws at once. *)
Theorem unsupported_refused
    (number : Type) (show : number -> string) (truthy : number -> bool)
    (platform : Platform) (c : Configure number) :
  (environment number c = "development" ->
   String.eqb (os platform) "darwin" = false ->
   String.eqb (os platform) "linux" = false ->
   generate number show truthy platform c
   = ([ConsoleLog ["Writing file to"; nginxPath number c]],
      Throw (mkError (String.append "Unknown OS: No support for " (os platform))))) /\
  (environment number c = "production" ->
   String.eqb (os platform) "linux" = false ->
   generate number show truthy platform c
   = ([],
      Throw (mkError
               (String.append
                  "Production only available for linux. No support for "
                  (os platform))))) /\
  (String.eqb (environment number c) "development" = false ->
   String.eqb (environment number c) "production" = false ->
   String.eqb (environment number c) "test" = false ->
   generate number show truthy platform c
   = ([],
      Throw (mkError (String.append "Unknown environment: No support for "
                        (environment number c))))).
Proof.
  split; [|split].
  - intros He Hd Hl. unfold generate. rewrite He. simpl String.eqb. cbv iota.
    unfold development. rewrite Hd, Hl. reflexivity.
  - intros He Hl. unfold generate. rewrite He. simpl String.eqb. cbv iota.
    unfold production. rewrite Hl. reflexivity.
  - intros H1 H2 H3. unfold generate. rewrite H1, H2, H3. reflexivity.
Qed.

(** A production run asked for on darwin. *)
Lemma unsupported_refused_witness :
  ConfigureDemo.generate_on "darwin"
    (ConfigureDemo.configure "darwin" (Some "production") (Some 10%Z)
       (Some "https://files.example/"))
  = ([],
     Throw (mkError "Production only available for linux. No support for darwin")).
Proof.
  exact (proj1 (proj2 (unsupported_refused Z ConfigureDemo.show
                         ConfigureDemo.nonzero (ConfigureDemo.machine "darwin")
                         (ConfigureDemo.configure "darwin" (Some "production")
                            (Some 10%Z) (Some "https://files.example/"))))
               eq_refl eq_refl).
Defined.

(** X17. [development] on darwin or linux writes the nginx configuration
    and then restarts nginx, through brew on darwin and through service
    on linux. A failed write is thrown and no command is run. A restart
    that exits with a code other than 0 throws [Error restarting nginx],
    and the process is then not closed. *)
Theorem development_restarts_nginx
    (number : Type) (show : number -> string) (truthy : number -> bool)
    (platform : Platform) (c : Configure number) :
  environment number c = "development" ->
  os platform = "darwin" \/ os platform = "linux" ->
  let cmd := if String.eqb (os platform) "darwin"
             then ["brew"; "services"; "restart"; "nginx"]
             else ["sudo"; "service"; "nginx"; "restart"] in
  let written :=
    [ConsoleLog ["Writing file to"; nginxPath number c];
     WriteTextFile (nginxPath number c) (nginx_of number show c)] in
  generate number show truthy platform c
  = match writeTextFile platform (nginxPath number c) (nginx_of number show c) with
    | Throw e => (written, Throw e)
    | Ok _ =>
        match run platform cmd with
        | Throw e => (written ++ [Run cmd], Throw e)
        | Ok code =>
            if (code =? 0)%Z then (written ++ [Run cmd; Close cmd], Ok tt)
            else (written ++ [Run cmd], Throw (mkError "Error restarting nginx"))
        end
    end.
Proof.
  intros He Hos cmd written. unfold generate. rewrite He. simpl String.eqb.
  cbv iota. unfold development, restartService, mbind, perform, throw, await.
  subst cmd written.
  destruct Hos as [Hos | Hos]; rewrite Hos; simpl String.eqb; cbv iota;
    (destruct (writeTextFile platform (nginxPath number c)
                 (nginx_of number show c)) as [[] | e]; [|reflexivity]);
    (destruct (run platform _) as [code | e]; [|reflexivity]);
    destruct (code =? 0)%Z; reflexivity.
Qed.

(** A development run on linux where the restart exits with code 1. *)
Lemma development_restarts_nginx_witness :
  outcome (generate Z ConfigureDemo.show ConfigureDemo.nonzero
             (custom_machine "linux" (Some "relay") None (fun _ => 1%Z))
             (ConfigureDemo.configure "linux" None (Some 10%Z) None))
  = Throw (mkError "Error restarting nginx").
Proof.
  exact (f_equal (@outcome unit)
           (development_restarts_nginx Z ConfigureDemo.show ConfigureDemo.nonzero
              (custom_machine "linux" (Some "relay") None (fun _ => 1%Z))
              (ConfigureDemo.configure "linux" None (Some 10%Z) None)
              eq_refl (or_intror eq_refl))).
Defined.

(** X18. [production] checks what the service needs only after the nginx
    configuration has been written and nginx restarted: when the user, the
    files URL, the public URL, the identifier length or the identifier
    alphabet is missing, the run throws the matching error, in that order
    of precedence, and leaves nginx reconfigured with no service file
    written. The user is SUDO_USER whenever that variable is defined, even
    as the empty text, and USER only otherwise; an empty user, a length
    that is not truthy (such as 0) and an empty alphabet count as
    missing. *)
Theorem production_prerequisites
    (number : Type) (show : number -> string) (truthy : number -> bool)
    (platform : Platform) (c : Configure number) :
  environment number c = "production" ->
  os platform = "linux" ->
  writeTextFile platform (nginxPath number c) (nginx_of number show c) = Ok tt ->
  run platform restart_linux = Ok 0%Z ->
  let failed text := (nginx_installed show c, Throw (mkError text) : result unit) in
  (env_get platform "SUDO_USER" = Some EmptyString ->
   generate number show truthy platform c
   = failed "Could not get user from $USER env var.") /\
  (env_get platform "SUDO_USER" = None ->
   truthy_string (env_get platform "USER") = false ->
   generate number show truthy platform c
   = failed "Could not get user from $USER env var.") /\
  (truthy_string (user_of_env platform) = true ->
   (filesURL number c = None ->
    generate number show truthy platform c
    = failed "Files URL required for production.") /\
   (forall files,
      filesURL number c = Some files ->
      (publicURL number c = None ->
       generate number show truthy platform c
       = failed "Public URL required for production.") /\
      (forall public,
         publicURL number c = Some public ->
         (idLength number c = None \/
          (exists len, idLength number c = Some len /\ truthy len = false) ->
          generate number show truthy platform c
          = failed "ID length required for production.") /\
         (forall len,
            idLength number c = Some len ->
            truthy len = true ->
            truthy_string (idAlphabet number c) = false ->
            generate number show truthy platform c
            = failed "ID Alphabet required for production.")))).
Proof.
  intros He Hos Hw Hr failed.
  assert (E : generate number show truthy platform c
              = (nginx_installed show c ++ trace (install_service number show truthy platform c),
                 outcome (install_service number show truthy platform c))).
  { unfold generate. rewrite He. simpl String.eqb. cbv iota.
    unfold production. rewrite Hos. simpl String.eqb. simpl negb. cbv iota.
    unfold restartService, mbind, perform, await, throw. rewrite Hw.
    simpl String.eqb. cbv iota. fold restart_linux. rewrite Hr.
    simpl Z.eqb. simpl negb. cbv iota. unfold trace, outcome.
    destruct (install_service number show truthy platform c). reflexivity. }
  rewrite E. unfold install_service, user_of_env, failed.
  split; [|split].
  - intros H. rewrite H. reflexivity.
  - intros H1 H2. rewrite H1.
    destruct (env_get platform "USER") as [[|ch u]|]; simpl in H2;
      try discriminate H2; reflexivity.
  - intros Hu. unfold user_of_env in Hu.
    destruct (match env_get platform "SUDO_USER" with
              | Some u => Some u
              | None => env_get platform "USER"
              end) as [[|ch u]|]; simpl in Hu; try discriminate Hu.
    split.
    + intros H. rewrite H. reflexivity.
    + intros files Hf. rewrite Hf. split.
      * intros H. rewrite H. reflexivity.
      * intros public Hp. rewrite Hp. split.
        -- intros [H | [len [H Ht]]]; rewrite H; [reflexivity|].
           rewrite Ht. reflexivity.
        -- intros len Hl Ht Ha. rewrite Hl, Ht. simpl negb. cbv iota.
           destruct (idAlphabet number c) as [[|ch' al]|]; simpl in Ha;
             try discriminate Ha; reflexivity.
Qed.

(** A production run on linux for an identifier length of 0. *)
Lemma production_prerequisites_witness :
  ConfigureDemo.generate_on "linux"
    (ConfigureDemo.configure "linux" (Some "production") (Some 0%Z)
       (Some "https://files.example/"))
  = (nginx_installed ConfigureDemo.show
       (ConfigureDemo.configure "linux" (Some "production") (Some 0%Z)
          (Some "https://files.example/")),
     Throw (mkError "ID length required for production.")).
Proof.
  refine (proj1 (proj2 (proj2 (proj2 (proj2
           (production_prerequisites Z ConfigureDemo.show ConfigureDemo.nonzero
              (ConfigureDemo.machine "linux")
              (ConfigureDemo.configure "linux" (Some "production") (Some 0%Z)
                 (Some "https://files.example/"))
              eq_refl eq_refl eq_refl eq_refl))
           eq_refl) "https://files.example/" eq_refl)
           "https://relay.example/" eq_refl) _).
  right. exists 0%Z. split; reflexivity.
Defined.



(** Case analysis on every test and outcome of a [generate] run. *)
Ltac plain x :=
  lazymatch x with
  | context [if _ then _ else _] => fail
  | context [match _ with Ok _ => _ | Throw _ => _ end] => fail
  | context [match _ with Some _ => _ | None => _ end] => fail
  | context [match _ with EmptyString => _ | String _ _ => _ end] => fail
  | _ => idtac
  end.

Ltac generate_cases :=
  repeat match goal with
         | |- context [if ?b then _ else _] => plain b; destruct b eqn:?
         | |- context [match ?x with Ok _ => _ | Throw _ => _ end] =>
             plain x; destruct x eqn:?
         | |- context [match ?x with Some _ => _ | None => _ end] =>
             plain x; destruct x eqn:?
         | |- context [match ?x with EmptyString => _ | String _ _ => _ end] =>
             plain x; destruct x eqn:?
         end.

(** X20. In every run of [generate], whatever the environment, the system
    and the outcomes of the writes and commands: a command is run only
    after the nginx configuration has been written with success, as the
    first file of the run; and a file is written only at the nginx path,
    with the nginx configuration, or at the service path, in production
    on linux. *)
Theorem commands_follow_nginx_write
    (number : Type) (show : number -> string) (truthy : number -> bool)
    (platform : Platform) (c : Configure number) :
  (forall cmd,
     In (Run cmd) (trace (generate number show truthy platform c)) ->
     writeTextFile platform (nginxPath number c) (nginx_of number show c) = Ok tt /\
     exists rest,
       trace (generate number show truthy platform c)
       = ConsoleLog ["Writing file to"; nginxPath number c]
           :: WriteTextFile (nginxPath number c) (nginx_of number show c)
           :: rest) /\
  (forall path text,
     In (WriteTextFile path text) (trace (generate number show truthy platform c)) ->
     (path = nginxPath number c /\ text = nginx_of number show c) \/
     (path = servicePath number c /\
      environment number c = "production" /\
      os platform = "linux")).
Proof.
  unfold generate, development, production, test, restartService,
    install_service, systemctl, user_of_env, mbind, perform, throw, ret, await,
    trace.
  simpl String.eqb.
  generate_cases; simpl;
    (split;
     [ intros cmd H;
       first
         [ split;
           [ repeat match goal with
                    | u : unit |- _ => destruct u
                    end;
             reflexivity
           | eexists; reflexivity ]
         | solve [ repeat match goal with
                          | H : _ \/ _ |- _ => destruct H
                          | H : False |- _ => contradiction
                          | H : _ = Run _ |- _ => discriminate H
                          end ] ]
     | intros path text H;
       repeat match goal with
              | H : _ \/ _ |- _ => destruct H
              | H : False |- _ => contradiction
              | H : _ = WriteTextFile _ _ |- _ => inversion H; clear H
              end;
       subst;
       first
         [ left; split; reflexivity
         | right;
           repeat match goal with
                  | H : negb _ = false |- _ => apply negb_false_iff in H
                  | H : String.eqb _ _ = true |- _ => apply String.eqb_eq in H
                  end;
           auto ] ]).
Qed.

(** A production run on linux where everything succeeds: its commands come
    after the write of the nginx configuration. *)
Lemma commands_follow_nginx_write_witness :
  exists rest,
    trace (ConfigureDemo.generate_on "linux"
             (ConfigureDemo.configure "linux" (Some "production") (Some 10%Z)
                (Some "https://files.example/")))
    = ConsoleLog ["Writing file to"; "/etc/nginx/sites-enabled/sludge_nginx.conf"]
        :: WriteTextFile "/etc/nginx/sites-enabled/sludge_nginx.conf"
             (nginx_of Z ConfigureDemo.show
                (ConfigureDemo.configure "linux" (Some "production") (Some 10%Z)
                   (Some "https://files.example/")))
        :: rest.
Proof.
  refine (proj2 (proj1 (commands_follow_nginx_write Z ConfigureDemo.show
                          ConfigureDemo.nonzero (ConfigureDemo.machine "linux")
                          (ConfigureDemo.configure "linux" (Some "production")
                             (Some 10%Z) (Some "https://files.example/")))
                       restart_linux _)).
  vm_compute. tauto.
Defined.

(** ** The generated files *)

Lemma prefix_refl (x : string) : String.prefix x x = true.
Proof.
  induction x as [|c x IH]; simpl; [reflexivity|].
  destruct (ascii_dec c c) as [_ | N]; [exact IH | now elim N].
Qed.

Lemma occurs_after (needle a b : string) :
  occurs needle b = true -> occurs needle (a ++ b) = true.
Proof.
  intros H. induction a as [|c a IH]; simpl; [exact H|].
  rewrite IH. apply orb_true_r.
Qed.

Lemma prefix_before (needle a b : string) :
  String.prefix needle a = true -> String.prefix needle (a ++ b) = true.
Proof.
  revert a. induction needle as [|c needle IH]; intros a; simpl.
  - destruct a; simpl; intros _; [destruct b|]; reflexivity.
  - destruct a as [|d a]; simpl; [discriminate|].
    destruct (ascii_dec c d); [apply IH | discriminate].
Qed.

Lemma occurs_before (needle a b : string) :
  occurs needle a = true -> occurs needle (a ++ b) = true.
Proof.
  induction a as [|c a IH].
  - simpl. rewrite orb_false_r. intros H.
    apply occurs_here. now apply (prefix_before needle EmptyString b).
  - change (String c a ++ b)%string with (String c (a ++ b)).
    change (occurs needle (String c a))
      with (orb (String.prefix needle (String c a)) (occurs needle a)).
    change (occurs needle (String c (a ++ b)))
      with (orb (String.prefix needle (String c (a ++ b)))
                (occurs needle (a ++ b))).
    intros H. apply orb_true_iff in H. destruct H as [H | H].
    + pose proof (prefix_before needle (String c a) b H) as P.
      change (String c a ++ b)%string with (String c (a ++ b)) in P.
      rewrite P. reflexivity.
    + rewrite (IH H). apply orb_true_r.
Qed.

(** A line of a text put together by [String.concat] occurs in it. *)
Lemma line_occurs (sep line : string) (lines : list string) :
  In line lines -> occurs line (String.concat sep lines) = true.
Proof.
  induction lines as [|x lines IH]; [contradiction|].
  intros [-> | H].
  - destruct lines as [|y lines]; simpl String.concat.
    + apply occurs_here, prefix_refl.
    + apply occurs_before, occurs_here, prefix_refl.
  - destruct lines as [|y lines]; [contradiction|].
    change (String.concat sep (x :: y :: lines))
      with (x ++ sep ++ String.concat sep (y :: lines))%string.
    apply occurs_after, occurs_after, IH, H.
Qed.

(** X21. The two generated files agree with the instance and with each
    other: the nginx configuration of an instance proxies to its sludge
    port, serves the audio files from the [audio] directory under its
    root file path, and caches them for the cache age in days multiplied
    by 24, 60 and 60; the service file passes the same sludge port and
    root file path to the server. *)
Theorem generated_files_agree
    (number : Type) (times : number -> number -> number)
    (literal : Z -> number) (show : number -> string) (platform : Platform)
    (environment : option string)
    (nginxPort : number) (serverName : string) (sludgePort : number)
    (rootFilePath : string) (cacheAgeDays : number)
    (idLength : option number) (idAlphabet : option string)
    (nginxConfFileName serviceFileName : option string)
    (filesURL publicURL : option URL)
    (user projectPath files public alphabet : string) (len : number) :
  let c :=
    constructor number times literal platform environment nginxPort serverName
      sludgePort rootFilePath cacheAgeDays idLength idAlphabet nginxConfFileName
      serviceFileName filesURL publicURL in
  let service :=
    serviceTemplate number show user projectPath files public
      (Configure.sludgePort number c) (Configure.rootFilePath number c)
      len alphabet in
  occurs ("		proxy_pass			http://127.0.0.1:" ++ show sludgePort ++ ";")
         (nginx_of number show c) = true /\
  occurs ("		alias				" ++ rootFilePath ++ "/audio/$1/$2;")
         (nginx_of number show c) = true /\
  occurs ("		add_header 			'Cache-Control' 'public, max-age="
            ++ show (times (times (times cacheAgeDays (literal 24%Z))
                              (literal 60%Z)) (literal 60%Z))
            ++ ", immutable';")
         (nginx_of number show c) = true /\
  occurs ("Environment=" ++ dquote ++ "SLUDGE_PORT=" ++ show sludgePort ++ dquote)
         service = true /\
  occurs ("Environment=" ++ dquote ++ "SLUDGE_DIR=" ++ rootFilePath ++ dquote)
         service = true.
Proof.
  intros c service. subst c service.
  unfold nginx_of, nginxTemplate, serviceTemplate, constructor.
  cbn [Configure.nginxPort Configure.serverName Configure.sludgePort
       Configure.cacheAgeSeconds Configure.rootFilePath].
  repeat split; apply line_occurs; simpl; tauto.
Qed.
